(** * Earn9ja: the fraud-prevention service of the offer-wall backend

    A shallow embedding of [backend/src/services/FraudPreventionService.ts]
    and the properties its design document states about it.

    Conventions of the embedding.
    - JavaScript numbers that only ever hold integers (counts, scores,
      millisecond timestamps, amounts in minor units) are [Z]; the two
      quantities obtained by a division (seconds between completions, days since
      account creation) are exact rationals [Q].  The doubles of the source are
      thus idealised; on millisecond timestamps below 2^53 the comparisons
      with 30, 60 and 7 used here agree with the idealisation.
    - An [async] method is a computation in the monad [Async]: it reads and
      updates a [World] (ledger, account store, expiring key-value store,
      clock, log) and either returns a value or throws.
    - [Date.now()] reads the [clock] of the world, which stands still during
      one call and is moved between calls.
    - Values kept in the key-value store are JSON documents in the source;
      here they are the typed documents [RedisValue], so that
      [JSON.parse (JSON.stringify d)] is [d]. *)

From Stdlib Require Import ZArith QArith Qround Lia List Sorting.Sorted Permutation.
From stdpp Require Import base gmap strings list pretty.

Local Open Scope string_scope.
Local Open Scope Z_scope.

(** ** Data model *)

(** Status of a ledger record. *)
Inductive TxStatus : Type := pending | completed | failed.

Definition TxStatus_eqb (a b : TxStatus) : bool :=
  match a, b with
  | pending, pending | completed, completed | failed, failed => true
  | _, _ => false
  end.

(** A document of the [OfferWallTransaction] collection (the fields this
    service reads). [createdAt] is in milliseconds since the epoch. *)
Module Tx.
Record t : Type := mk {
  externalTransactionId : string;
  userId : string;
  providerId : string;
  convertedAmount : Z;
  status : TxStatus;
  createdAt : Z
}.
End Tx.

(** A document of the [User] collection. *)
Module Account.
Record t : Type := mk {
  id : string;
  createdAt : Z
}.
End Account.

(** Documents written to the expiring key-value store. *)
Inductive RedisValue : Type :=
| FlagDoc (userId reason : string) (flaggedAt : Z)
| IpDoc (users : list string) (count : Z) (lastSeen : Z).

Inductive LogLevel : Type := info | warn | error.

Record World : Type := mkWorld {
  ledger : list Tx.t;
  accounts : gmap string Account.t;
  mongoUp : bool;
  redisStore : gmap string (RedisValue * Z);
  redisUp : bool;
  clock : Z;
  logs : list (LogLevel * string)
}.

Definition setRedisStore (s : gmap string (RedisValue * Z)) (w : World) : World :=
  mkWorld (ledger w) (accounts w) (mongoUp w) s (redisUp w) (clock w) (logs w).

Definition addLog (e : LogLevel * string) (w : World) : World :=
  mkWorld (ledger w) (accounts w) (mongoUp w) (redisStore w) (redisUp w)
          (clock w) (logs w ++ [e]).

Definition atTime (t : Z) (w : World) : World :=
  mkWorld (ledger w) (accounts w) (mongoUp w) (redisStore w) (redisUp w)
          t (logs w).

(** ** The monad of asynchronous methods *)

Inductive Outcome (A : Type) : Type :=
| Returned (a : A)
| Thrown (e : string).
Arguments Returned {A} a.
Arguments Thrown {A} e.

Definition Async (A : Type) : Type := World -> Outcome A * World.

Definition ret {A} (a : A) : Async A := fun w => (Returned a, w).

Definition throw {A} (e : string) : Async A := fun w => (Thrown e, w).

Definition bind {A B} (m : Async A) (k : A -> Async B) : Async B :=
  fun w =>
    match m w with
    | (Returned a, w') => k a w'
    | (Thrown e, w') => (Thrown e, w')
    end.

(** [try { body } catch (error) { handler }] *)
Definition tryCatch {A} (body : Async A) (handler : string -> Async A) : Async A :=
  fun w =>
    match body w with
    | (Returned a, w') => (Returned a, w')
    | (Thrown e, w') => handler e w'
    end.

Declare Scope async_scope.
Delimit Scope async_scope with async.
Notation "'await' x <- m ; k" := (bind m (fun x => k))
  (at level 10, x name, m at level 100, k at level 200) : async_scope.
Notation "'exec' m ; k" := (bind m (fun _ => k))
  (at level 10, m at level 100, k at level 200) : async_scope.
Local Open Scope async_scope.

(** [Date.now()] *)
Definition Date_now : Async Z := fun w => (Returned (clock w), w).

(** [logger.info / warn / error] *)
Definition logger (lvl : LogLevel) (msg : string) : Async unit :=
  fun w => (Returned tt, addLog (lvl, msg) w).

(** ** Numbers *)

Definition Qltb (x y : Q) : bool := negb (Qle_bool y x).

Definition msToSeconds (ms : Z) : Q := (inject_Z ms / inject_Z 1000)%Q.

(** Template-literal interpolation of an integer. *)
Definition showZ (n : Z) : string := pretty n.

(** ** The ledger collaborator: the Mongoose models *)

(** A query against MongoDB: answered from the collections when the
    database is reachable, rejected otherwise. Queries never write. *)
Definition mongoQuery {A} (q : World -> A) : Async A :=
  fun w => if mongoUp w then (Returned (q w), w)
           else (Thrown "MongoNetworkError", w).

(** [.sort({ createdAt: -1 })]: newest first, stable. *)
Fixpoint insertNewest (x : Tx.t) (l : list Tx.t) : list Tx.t :=
  match l with
  | [] => [x]
  | y :: l' =>
      if Tx.createdAt y <=? Tx.createdAt x then x :: l
      else y :: insertNewest x l'
  end.

Definition sortNewestFirst (l : list Tx.t) : list Tx.t :=
  fold_right insertNewest [] l.

(** Modelled from the spec: the static [findByExternalId] of the model
    [OfferWallTransaction], whose file is not part of the sources; the
    design document gives it as the point lookup of a ledger record by its
    external transaction identifier. *)
Definition OfferWallTransaction_findByExternalId (id : string)
  : Async (option Tx.t) :=
  mongoQuery (fun w =>
    List.find (fun t => String.eqb (Tx.externalTransactionId t) id) (ledger w)).

(** [OfferWallTransaction.findOne(filter)] *)
Definition OfferWallTransaction_findOne (matches : Tx.t -> bool)
  : Async (option Tx.t) :=
  mongoQuery (fun w => List.find matches (ledger w)).

(** [OfferWallTransaction.findOne(filter).sort({ createdAt: -1 })] *)
Definition OfferWallTransaction_findOne_newest (matches : Tx.t -> bool)
  : Async (option Tx.t) :=
  mongoQuery (fun w => head (sortNewestFirst (List.filter matches (ledger w)))).

(** [OfferWallTransaction.find(filter).sort({ createdAt: -1 })] *)
Definition OfferWallTransaction_find_newest (matches : Tx.t -> bool)
  : Async (list Tx.t) :=
  mongoQuery (fun w => sortNewestFirst (List.filter matches (ledger w))).

(** [OfferWallTransaction.countDocuments(filter)] *)
Definition OfferWallTransaction_countDocuments (matches : Tx.t -> bool)
  : Async Z :=
  mongoQuery (fun w => Z.of_nat (length (List.filter matches (ledger w)))).

(** [User.findById(userId)] *)
Definition User_findById (userId : string) : Async (option Account.t) :=
  mongoQuery (fun w => accounts w !! userId).

(** ** The expiring key-value store *)

(** Modelled from the spec: the module [config/redis-wrapper] is not part of
    the sources; the design document gives the collaborator as a store with
    set-with-TTL and get, whose operations fail when it is unreachable. An
    entry carries the instant (ms) at which it expires. *)
Definition liveValue (key : string) (w : World) : option RedisValue :=
  match redisStore w !! key with
  | Some (v, expiresAt) => if clock w <? expiresAt then Some v else None
  | None => None
  end.

Definition redis_get (key : string) : Async (option RedisValue) :=
  fun w =>
    if redisUp w then (Returned (liveValue key w), w)
    else (Thrown "Redis unavailable", w).

Definition redis_setex (key : string) (seconds : Z) (v : RedisValue)
  : Async unit :=
  fun w =>
    if redisUp w then
      (Returned tt,
       setRedisStore (<[key := (v, clock w + seconds * 1000)]> (redisStore w)) w)
    else (Thrown "Redis unavailable", w).

(** ** FraudPreventionService *)

Definition RATE_LIMIT_HOUR : Z := 20.
Definition RATE_LIMIT_DAY : Z := 100.
Definition MIN_COMPLETION_TIME : Z := 30.
Definition HIGH_RISK_THRESHOLD : Z := 70.
Definition MEDIUM_RISK_THRESHOLD : Z := 40.

Inductive Action : Type := allow | flag | block.

Definition Action_eqb (a b : Action) : bool :=
  match a, b with
  | allow, allow | flag, flag | block, block => true
  | _, _ => false
  end.

Record FraudCheckResult : Type := mkFraudCheckResult {
  isFraudulent : bool;
  reasons : list string;
  riskScore : Z;
  action : Action
}.

Module Activity.
Record t : Type := mk {
  userId : string;
  completionsLast24h : Z;
  completionsLastHour : Z;
  avgCompletionTime : Q;
  uniqueProviders : Z;
  suspiciousPatterns : list string
}.
End Activity.

(** Result of [checkDuplicate]. *)
Module Dup.
Record t : Type := mk { isDuplicate : bool; reason : option string }.
End Dup.

(** Result of [checkRateLimit] and [checkCompletionCooldown]. *)
Module Limit.
Record t : Type := mk {
  allowed : bool;
  reason : option string;
  retryAfter : option Z
}.
End Limit.

(** Result of [trackIPAddress]. *)
Module IpCheck.
Record t : Type := mk { suspicious : bool; reason : option string }.
End IpCheck.

Definition checkDuplicate (externalTransactionId userId : string)
    (amount : Z) (providerId : string) : Async Dup.t :=
  await existingById <- OfferWallTransaction_findByExternalId externalTransactionId;
  match existingById with
  | Some _ => ret (Dup.mk true (Some "Transaction ID already exists"))
  | None =>
      await now <- Date_now;
      let oneMinuteAgo := now - 60 * 1000 in
      await recentSimilar <- OfferWallTransaction_findOne (fun t =>
        String.eqb (Tx.userId t) userId
        && String.eqb (Tx.providerId t) providerId
        && (Tx.convertedAmount t =? amount)
        && (oneMinuteAgo <=? Tx.createdAt t));
      match recentSimilar with
      | Some _ => ret (Dup.mk true (Some "Similar transaction within 1 minute"))
      | None => ret (Dup.mk false None)
      end
  end.

(** The filter [{ userId, status: "completed", createdAt: { $gte: since } }]. *)
Definition completedSince (userId : string) (since : Z) (t : Tx.t) : bool :=
  String.eqb (Tx.userId t) userId
  && TxStatus_eqb (Tx.status t) completed
  && (since <=? Tx.createdAt t).

Definition checkRateLimit (userId : string) : Async Limit.t :=
  await now <- Date_now;
  let hourAgo := now - 60 * 60 * 1000 in
  let dayAgo := now - 24 * 60 * 60 * 1000 in
  await hourlyCount <-
    OfferWallTransaction_countDocuments (completedSince userId hourAgo);
  if RATE_LIMIT_HOUR <=? hourlyCount then
    ret (Limit.mk false
           (Some ("Rate limit exceeded: " +:+ showZ hourlyCount +:+ "/"
                  +:+ showZ RATE_LIMIT_HOUR +:+ " per hour"))
           (Some 3600))
  else
    await dailyCount <-
      OfferWallTransaction_countDocuments (completedSince userId dayAgo);
    if RATE_LIMIT_DAY <=? dailyCount then
      ret (Limit.mk false
             (Some ("Daily limit exceeded: " +:+ showZ dailyCount +:+ "/"
                    +:+ showZ RATE_LIMIT_DAY +:+ " per day"))
             (Some 86400))
    else ret (Limit.mk true None None).

(** The filter [{ userId, status: "completed" }]. *)
Definition completedOf (userId : string) (t : Tx.t) : bool :=
  String.eqb (Tx.userId t) userId && TxStatus_eqb (Tx.status t) completed.

Definition checkCompletionCooldown (userId : string) : Async Limit.t :=
  await lastCompletion <-
    OfferWallTransaction_findOne_newest (completedOf userId);
  match lastCompletion with
  | Some last =>
      await now <- Date_now;
      let timeSinceLastCompletion := msToSeconds (now - Tx.createdAt last) in
      if Qltb timeSinceLastCompletion (inject_Z MIN_COMPLETION_TIME) then
        ret (Limit.mk false
               (Some ("Cooldown period: " +:+ showZ MIN_COMPLETION_TIME
                      +:+ "s between completions"))
               (Some (Qceiling (inject_Z MIN_COMPLETION_TIME
                                - timeSinceLastCompletion))))
      else ret (Limit.mk true None None)
  | None => ret (Limit.mk true None None)
  end.

(** The [for] loop of [analyzeUserActivity] over consecutive records, with its
    two accumulators. *)
Fixpoint gapLoop (l : list Tx.t) (totalTimeBetween completionPairs : Z) : Z * Z :=
  match l with
  | a :: ((b :: _) as rest) =>
      gapLoop rest
        (totalTimeBetween + (Tx.createdAt a - Tx.createdAt b))
        (completionPairs + 1)
  | _ => (totalTimeBetween, completionPairs)
  end.

Definition HIGH_RATE : string := "High completion rate (>10/hour)".
Definition FAST_COMPLETIONS : string := "Unusually fast completions (<60s avg)".
Definition SINGLE_PROVIDER : string := "Single provider focus (>20 completions)".
Definition ROUND_AMOUNTS : string := "Mostly round amounts (possible testing)".

(** The body of [analyzeUserActivity] after its query: the metrics of the
    fetched records [recentTransactions]. *)
Definition analyzeTransactions (userId : string) (now : Z)
    (recentTransactions : list Tx.t) : Activity.t :=
  let hourAgo := now - 60 * 60 * 1000 in
  let completionsLast24h := Z.of_nat (length recentTransactions) in
  let completionsLastHour :=
    Z.of_nat (length (List.filter (fun t => hourAgo <=? Tx.createdAt t)
                                  recentTransactions)) in
  let '(totalTimeBetween, completionPairs) := gapLoop recentTransactions 0 0 in
  let avgCompletionTime : Q :=
    if 0 <? completionPairs then
      (inject_Z totalTimeBetween / inject_Z completionPairs / inject_Z 1000)%Q
    else 0%Q in
  let uniqueProviders :=
    Z.of_nat (size (list_to_set (map Tx.providerId recentTransactions)
                    : gset string)) in
  let pattern1 :=
    if 10 <? completionsLastHour then [HIGH_RATE] else [] in
  let pattern2 :=
    if Qltb avgCompletionTime (inject_Z 60) && (5 <? completionPairs)
    then [FAST_COMPLETIONS] else [] in
  let pattern3 :=
    if (uniqueProviders =? 1) && (20 <? completionsLast24h)
    then [SINGLE_PROVIDER] else [] in
  let roundAmounts :=
    Z.of_nat (length (List.filter
                        (fun t => Z.rem (Tx.convertedAmount t) 100 =? 0)
                        recentTransactions)) in
  let pattern4 :=
    if Qltb (inject_Z completionsLast24h * (8 # 10))%Q (inject_Z roundAmounts)
       && (10 <? completionsLast24h)
    then [ROUND_AMOUNTS] else [] in
  Activity.mk userId completionsLast24h completionsLastHour avgCompletionTime
    uniqueProviders (pattern1 ++ pattern2 ++ pattern3 ++ pattern4)%list.

(** The filter [{ userId, createdAt: { $gte: dayAgo } }]. *)
Definition recentOf (userId : string) (dayAgo : Z) (t : Tx.t) : bool :=
  String.eqb (Tx.userId t) userId && (dayAgo <=? Tx.createdAt t).

Definition analyzeUserActivity (userId : string) : Async Activity.t :=
  await now <- Date_now;
  let dayAgo := now - 24 * 60 * 60 * 1000 in
  await recentTransactions <-
    OfferWallTransaction_find_newest (recentOf userId dayAgo);
  ret (analyzeTransactions userId now recentTransactions).

(** The terms of [calculateRiskScore] that depend on the activity only. *)
Definition activityRisk (activity : Activity.t) : Z :=
  let riskScore := 0 in
  let riskScore :=
    if 15 <? Activity.completionsLastHour activity then riskScore + 30
    else if 10 <? Activity.completionsLastHour activity then riskScore + 15
    else riskScore in
  let riskScore :=
    if Qltb (Activity.avgCompletionTime activity) (inject_Z 30)
    then riskScore + 40
    else if Qltb (Activity.avgCompletionTime activity) (inject_Z 60)
    then riskScore + 20
    else riskScore in
  let riskScore :=
    if (Activity.uniqueProviders activity =? 1)
       && (20 <? Activity.completionsLast24h activity)
    then riskScore + 25 else riskScore in
  riskScore + Z.of_nat (length (Activity.suspiciousPatterns activity)) * 10.

(** The account-age term of [calculateRiskScore]. *)
Definition newAccountRisk (user : option Account.t) (now : Z)
    (activity : Activity.t) : Z :=
  match user with
  | Some u =>
      let accountAge := now - Account.createdAt u in
      let daysSinceCreation :=
        (inject_Z accountAge / inject_Z (1000 * 60 * 60 * 24))%Q in
      if Qltb daysSinceCreation (inject_Z 7)
         && (30 <? Activity.completionsLast24h activity)
      then 20 else 0
  | None => 0
  end.

(** The score [calculateRiskScore] returns, as a function of its signals. *)
Definition riskScoreFrom (activity : Activity.t) (user : option Account.t)
    (now : Z) : Z :=
  Z.min (activityRisk activity + newAccountRisk user now activity) 100.

Definition calculateRiskScore (userId : string) : Async Z :=
  await activity <- analyzeUserActivity userId;
  let riskScore := activityRisk activity in
  await user <- User_findById userId;
  match user with
  | Some _ =>
      await now <- Date_now;
      let riskScore := riskScore + newAccountRisk user now activity in
      ret (Z.min riskScore 100)
  | None => ret (Z.min riskScore 100)
  end.

Definition flagKey (userId : string) : string := "fraud:flagged:" +:+ userId.

Definition SEVEN_DAYS : Z := 86400 * 7.

Definition flagUserForReview (userId reason : string) : Async unit :=
  tryCatch
    (let key := flagKey userId in
     await flaggedAt <- Date_now;
     exec redis_setex key SEVEN_DAYS (FlagDoc userId reason flaggedAt);
     logger warn "User flagged for fraud review")
    (fun _ => logger error "Error flagging user:").

Definition isUserFlagged (userId : string) : Async bool :=
  tryCatch
    (let key := flagKey userId in
     await flagged <- redis_get key;
     ret (match flagged with Some _ => true | None => false end))
    (fun _ =>
       exec logger error "Error checking user flag:";
       ret false).

(** The [reason!] of a check that reported a reason. *)
Definition nonNull (reason : option string) : string := default "" reason.

Definition checkForFraud (userId externalTransactionId : string) (amount : Z)
    (providerId : string) : Async FraudCheckResult :=
  let reasons : list string := [] in
  let riskScore := 0 in
  await duplicateCheck <-
    checkDuplicate externalTransactionId userId amount providerId;
  let '(reasons, riskScore) :=
    if Dup.isDuplicate duplicateCheck
    then ((reasons ++ [nonNull (Dup.reason duplicateCheck)])%list, riskScore + 100)
    else (reasons, riskScore) in
  await rateLimitCheck <- checkRateLimit userId;
  let '(reasons, riskScore) :=
    if negb (Limit.allowed rateLimitCheck)
    then ((reasons ++ [nonNull (Limit.reason rateLimitCheck)])%list, riskScore + 50)
    else (reasons, riskScore) in
  await cooldownCheck <- checkCompletionCooldown userId;
  let '(reasons, riskScore) :=
    if negb (Limit.allowed cooldownCheck)
    then ((reasons ++ [nonNull (Limit.reason cooldownCheck)])%list, riskScore + 30)
    else (reasons, riskScore) in
  await userRiskScore <- calculateRiskScore userId;
  let riskScore := Z.max riskScore userRiskScore in
  await activity <- analyzeUserActivity userId;
  let reasons := (reasons ++ Activity.suspiciousPatterns activity)%list in
  let action :=
    if HIGH_RISK_THRESHOLD <=? riskScore then block
    else if MEDIUM_RISK_THRESHOLD <=? riskScore then flag
    else allow in
  let isFraudulent := Action_eqb action block in
  exec logger info "Fraud check completed";
  exec (if Action_eqb action block
        then flagUserForReview userId (String.concat ", " reasons)
        else ret tt);
  ret (mkFraudCheckResult isFraudulent reasons riskScore action).

Definition ipKey (ipAddress : string) : string := "fraud:ip:" +:+ ipAddress.

Definition ONE_DAY : Z := 86400.

Definition trackIPAddress (ipAddress userId : string) : Async IpCheck.t :=
  tryCatch
    (let key := ipKey ipAddress in
     await data <- redis_get key;
     await ipData <-
       match data with
       | Some (IpDoc users count _) => ret (users, count)
       | Some (FlagDoc _ _ _) =>
           throw "TypeError: Cannot read properties of undefined (reading 'includes')"
       | None => ret ([], 0)
       end;
     let '(users, count) := ipData in
     let users :=
       if existsb (String.eqb userId) users then users
       else (users ++ [userId])%list in
     let count := count + 1 in
     await lastSeen <- Date_now;
     exec redis_setex key ONE_DAY (IpDoc users count lastSeen);
     if 5 <? Z.of_nat (length users) then
       ret (IpCheck.mk true
              (Some ("Multiple users (" +:+ showZ (Z.of_nat (length users))
                     +:+ ") from same IP")))
     else if 100 <? count then
       ret (IpCheck.mk true
              (Some ("High request count (" +:+ showZ count +:+ ") from IP")))
     else ret (IpCheck.mk false None))
    (fun _ =>
       exec logger error "Error tracking IP:";
       ret (IpCheck.mk false None)).

(** ** Notions used to state the properties *)

(** [newerEq a b]: [a] was created no earlier than [b]. *)
Definition newerEq (a b : Tx.t) : Prop := Tx.createdAt b <= Tx.createdAt a.

Definition HOUR_MS : Z := 60 * 60 * 1000.
Definition DAY_MS : Z := 24 * 60 * 60 * 1000.

Definition withLedger (l : list Tx.t) (w : World) : World :=
  mkWorld l (accounts w) (mongoUp w) (redisStore w) (redisUp w) (clock w) (logs w).

Definition isCompleted (t : Tx.t) : bool := TxStatus_eqb (Tx.status t) completed.

(** Number of completed records of the user whose [createdAt] lies within
    the last [span] milliseconds, that is in [[now - span, now]]. *)
Definition completedWithin (userId : string) (span : Z) (w : World) : Z :=
  Z.of_nat (length (List.filter
    (fun t => completedOf userId t
              && (clock w - span <=? Tx.createdAt t)
              && (Tx.createdAt t <=? clock w))
    (ledger w))).

(** The count the rate limiter measures for a window of [span] milliseconds:
    the answer of its [countDocuments] query. *)
Definition measuredCount (userId : string) (span : Z) (w : World) : Z :=
  Z.of_nat (length (List.filter (completedSince userId (clock w - span)) (ledger w))).

(** [r] is a most recent completed record of the user. *)
Definition isLatestCompleted (userId : string) (w : World) (r : Tx.t) : Prop :=
  In r (ledger w) /\ completedOf userId r = true /\
  forall r', In r' (ledger w) -> completedOf userId r' = true ->
             Tx.createdAt r' <= Tx.createdAt r.

(** *** Sample data *)

(** Some instant, in milliseconds since the epoch. *)
Definition T0 : Z := 1700000000000.

Definition sampleTx (i : nat) (userId : string) (st : TxStatus) (createdAt : Z)
  : Tx.t :=
  Tx.mk ("ext-" +:+ pretty i) userId "provider-1" 500 st createdAt.

(** [n] records of one user, the newest at [newest], [gap] ms apart. *)
Definition burst (n : nat) (userId : string) (st : TxStatus) (newest gap : Z)
  : list Tx.t :=
  map (fun i => sampleTx i userId st (newest - Z.of_nat i * gap)) (seq 0 n).

Definition worldOf (l : list Tx.t) (up : bool) : World :=
  mkWorld l ∅ true ∅ up T0 [].

(** A hundred completions within the last fifty minutes. *)
Definition busyHourWorld : World :=
  worldOf (burst 100 "alice" completed (T0 - 1000) 30000) true.

(** A hundred completions within the last day, ten of them in the last hour. *)
Definition busyDayWorld : World :=
  worldOf (burst 100 "alice" completed (T0 - 1000) 360000) true.

(** One completion ten seconds ago. *)
Definition tenSecondsWorld : World :=
  worldOf [sampleTx 0 "alice" completed (T0 - 10000)] true.

(** One completion forty seconds ago. *)
Definition fortySecondsWorld : World :=
  worldOf [sampleTx 0 "alice" completed (T0 - 40000)] true.

(** One completion dated five seconds ahead of the clock. *)
Definition skewWorld : World :=
  worldOf [sampleTx 0 "alice" completed (T0 + 5000)] true.

(** The records [analyzeUserActivity] fetches: those of the user created
    since 24 hours before now, newest first. *)
Definition recentTransactions (userId : string) (w : World) : list Tx.t :=
  sortNewestFirst (List.filter (recentOf userId (clock w - DAY_MS)) (ledger w)).

(** A live [FraudFlag] of the user is on file. *)
Definition flagPersisted (userId : string) (w : World) : Prop :=
  exists reason flaggedAt expiresAt,
    redisStore w !! flagKey userId
      = Some (FlagDoc userId reason flaggedAt, expiresAt)
    /\ clock w < expiresAt.

(** The world after [flagUserForReview] when the store accepts the write. *)
Definition flagged (userId reason : string) (w : World) : World :=
  addLog (warn, "User flagged for fraud review")
    (setRedisStore
       (<[flagKey userId := (FlagDoc userId reason (clock w),
                             clock w + SEVEN_DAYS * 1000)]> (redisStore w)) w).

(** The same ledger as [tenSecondsWorld], with the key-value store down. *)
Definition storeDownWorld : World :=
  worldOf [sampleTx 0 "alice" completed (T0 - 10000)] false.

(** The decision and the world [checkForFraud] leaves behind on the replay
    in [tenSecondsWorld]. *)
Definition replayReasons : list string :=
  ["Transaction ID already exists"; "Cooldown period: 30s between completions"].

Definition replayDecision : FraudCheckResult :=
  mkFraudCheckResult true replayReasons 130 block.

Definition replayWorld : World :=
  flagged "alice" (String.concat ", " replayReasons)
    (addLog (info, "Fraud check completed") tenSecondsWorld).

Definition replayStoreDownWorld : World :=
  addLog (error, "Error flagging user:")
    (addLog (info, "Fraud check completed") storeDownWorld).

(** The window the design document describes for the behavioural analyzer:
    at most the 100 most recent completed records of the user within the last
    24 hours, newest first. *)
Definition recentCompleted_spec (userId : string) (w : World) : list Tx.t :=
  take 100
    (sortNewestFirst
       (List.filter
          (fun t => recentOf userId (clock w - DAY_MS) t && isCompleted t)
          (ledger w))).

(** The metrics over that window. *)
Definition analyzeUserActivity_spec (userId : string) (w : World) : Activity.t :=
  analyzeTransactions userId (clock w) (recentCompleted_spec userId w).

(** One pending record, a minute old. *)
Definition pendingWorld : World :=
  worldOf [sampleTx 0 "alice" pending (T0 - 60000)] true.

(** 101 completions within the last day. *)
Definition manyWorld : World :=
  worldOf (burst 101 "alice" completed (T0 - 1000) 600000) true.

(** Six, and seven, records ten seconds apart. *)
Definition sixWorld : World :=
  worldOf (burst 6 "alice" completed (T0 - 1000) 10000) true.

Definition sevenWorld : World :=
  worldOf (burst 7 "alice" completed (T0 - 1000) 10000) true.

(** One signal of an activity pattern changed, the others kept. *)
Definition withCompletionsLastHour (n : Z) (a : Activity.t) : Activity.t :=
  Activity.mk (Activity.userId a) (Activity.completionsLast24h a) n
    (Activity.avgCompletionTime a) (Activity.uniqueProviders a)
    (Activity.suspiciousPatterns a).

Definition withAvgCompletionTime (q : Q) (a : Activity.t) : Activity.t :=
  Activity.mk (Activity.userId a) (Activity.completionsLast24h a)
    (Activity.completionsLastHour a) q (Activity.uniqueProviders a)
    (Activity.suspiciousPatterns a).

Definition withPattern (label : string) (a : Activity.t) : Activity.t :=
  Activity.mk (Activity.userId a) (Activity.completionsLast24h a)
    (Activity.completionsLastHour a) (Activity.avgCompletionTime a)
    (Activity.uniqueProviders a)
    (Activity.suspiciousPatterns a ++ [label])%list.

Definition sampleActivity : Activity.t :=
  Activity.mk "alice" 12 12 (45 # 1) 2 [HIGH_RATE].

(** A world in which a flag of the user is on file and the store is down. *)
Definition flaggedStoreDownWorld : World :=
  mkWorld [] ∅ true
    (<[flagKey "alice" := (FlagDoc "alice" "Transaction ID already exists" T0,
                           T0 + SEVEN_DAYS * 1000)]> ∅)
    false (T0 + 1000) [].

(** The live activity record of an address: its users and its count, when
    the entry has not expired. *)
Definition ipRecord (ipAddress : string) (w : World) : option (list string * Z) :=
  match liveValue (ipKey ipAddress) w with
  | Some (IpDoc users count _) => Some (users, count)
  | _ => None
  end.

(** The answer of [trackIPAddress] on the updated users and count. *)
Definition ipVerdict (users : list string) (count : Z) : IpCheck.t :=
  if 5 <? Z.of_nat (length users) then
    IpCheck.mk true
      (Some ("Multiple users (" +:+ showZ (Z.of_nat (length users))
             +:+ ") from same IP"))
  else if 100 <? count then
    IpCheck.mk true (Some ("High request count (" +:+ showZ count +:+ ") from IP"))
  else IpCheck.mk false None.

(** [users.includes(userId)], then [push]. *)
Definition addUser (userId : string) (users : list string) : list string :=
  if existsb (String.eqb userId) users then users else (users ++ [userId])%list.

(** The world after a successful [trackIPAddress]. *)
Definition tracked (ipAddress : string) (users : list string) (count : Z)
    (w : World) : World :=
  setRedisStore
    (<[ipKey ipAddress := (IpDoc users count (clock w),
                           clock w + ONE_DAY * 1000)]> (redisStore w)) w.

(** A series of [trackIPAddress] calls for one address, each at its own
    instant. *)
Fixpoint trackCalls (ipAddress : string) (calls : list (Z * string)) (w : World)
  : list (Outcome IpCheck.t) * World :=
  match calls with
  | [] => ([], w)
  | (t, userId) :: rest =>
      let '(o, w1) := trackIPAddress ipAddress userId (atTime t w) in
      let '(os, w2) := trackCalls ipAddress rest w1 in
      (o :: os, w2)
  end.

(** The calls come in order of time, all less than 24 hours after [start]. *)
Fixpoint inWindow (start prev : Z) (calls : list (Z * string)) : Prop :=
  match calls with
  | [] => True
  | (t, _) :: rest =>
      prev <= t /\ t < start + ONE_DAY * 1000 /\ inWindow start t rest
  end.

Definition withinOneDay (calls : list (Z * string)) : Prop :=
  match calls with
  | [] => True
  | (t, _) :: _ => inWindow t t calls
  end.

(** The answers to a series of first-time users, from the users and the
    count on file. *)
Fixpoint verdicts (users : list string) (count : Z) (newUsers : list string)
  : list (Outcome IpCheck.t) :=
  match newUsers with
  | [] => []
  | u :: rest =>
      Returned (ipVerdict (users ++ [u]) (count + 1))
      :: verdicts (users ++ [u]) (count + 1) rest
  end.

Definition sixCalls : list (Z * string) :=
  [(T0, "u1"); (T0 + 1000, "u2"); (T0 + 2000, "u3");
   (T0 + 3000, "u4"); (T0 + 3600000, "u5"); (T0 + 80000000, "u6")].

Definition emptyWorld : World := worldOf [] true.

(** ** The rest of the service: flag administration and the report *)

(** Modelled from the spec: [redis.del] and [redis.keys] of the absent module
    [config/redis-wrapper]; the design document asks the store for delete and
    for key enumeration by prefix. [redis_del] answers the number of keys it
    removed. [redis_keys] is given the prefix that precedes the final [*] of
    the pattern and lists the keys that have not expired; the order of the
    keys is the store's own. *)
Definition redis_del (key : string) : Async Z :=
  fun w =>
    if redisUp w then
      (Returned (match liveValue key w with Some _ => 1 | None => 0 end),
       setRedisStore (delete key (redisStore w)) w)
    else (Thrown "Redis unavailable", w).

Definition liveKeys (prefix : string) (w : World) : list string :=
  map fst
    (List.filter
       (fun kv : string * (RedisValue * Z) =>
          String.prefix prefix (fst kv) && (clock w <? snd (snd kv)))
       (map_to_list (redisStore w))).

Definition redis_keys (prefix : string) : Async (list string) :=
  fun w =>
    if redisUp w then (Returned (liveKeys prefix w), w)
    else (Thrown "Redis unavailable", w).

(** [OfferWallTransaction.find(filter)], in the order of the collection. *)
Definition OfferWallTransaction_find (matches : Tx.t -> bool)
  : Async (list Tx.t) :=
  mongoQuery (fun w => List.filter matches (ledger w)).

Definition FLAG_PREFIX : string := "fraud:flagged:".

(** The [for ... of keys] loop of [getFlaggedUsers]. *)
Fixpoint collectFlagged (keys : list string) (flaggedUsers : list RedisValue)
  : Async (list RedisValue) :=
  match keys with
  | [] => ret flaggedUsers
  | key :: rest =>
      await data <- redis_get key;
      collectFlagged rest
        (match data with
         | Some doc => (flaggedUsers ++ [doc])%list
         | None => flaggedUsers
         end)
  end.

Definition getFlaggedUsers : Async (list RedisValue) :=
  tryCatch
    (await keys <- redis_keys FLAG_PREFIX;
     collectFlagged keys [])
    (fun _ =>
       exec logger error "Error getting flagged users:";
       ret []).

Definition clearUserFlag (userId : string) : Async unit :=
  tryCatch
    (let key := flagKey userId in
     exec redis_del key;
     logger info "User flag cleared")
    (fun _ => logger error "Error clearing user flag:").

(** A JavaScript [Map<string, number>] used as a counter: entries in order
    of first insertion; [m.set(k, (m.get(k) || 0) + 1)]. *)
Fixpoint bump (k : string) (m : list (string * Z)) : list (string * Z) :=
  match m with
  | [] => [(k, 0 + 1)]
  | (k', n) :: rest =>
      if String.eqb k' k then (k', (if n =? 0 then 0 else n) + 1) :: rest
      else (k', n) :: bump k rest
  end.

(** [entries.sort((a, b) => b[1] - a[1])]: by count, largest first, stable. *)
Fixpoint insertByCount (x : string * Z) (l : list (string * Z))
  : list (string * Z) :=
  match l with
  | [] => [x]
  | y :: l' =>
      if snd y <=? snd x then x :: l else y :: insertByCount x l'
  end.

Definition sortByCount (l : list (string * Z)) : list (string * Z) :=
  fold_right insertByCount [] l.

Module Report.
Record t : Type := mk {
  periodStart : Z;
  periodEnd : Z;
  totalTransactions : Z;
  failedTransactions : Z;
  suspiciousUsers : list (string * Z);
  flaggedUsers : list RedisValue;
  topUsers : list (string * Z);
  providerBreakdown : list (string * Z)
}.
End Report.

(** The state of the [forEach] of [generateFraudReport]: the two counters
    and the failed transactions seen so far. *)
Definition reportStep
    (acc : list (string * Z) * list (string * Z) * list Tx.t) (t : Tx.t)
  : list (string * Z) * list (string * Z) * list Tx.t :=
  let '(userActivity, providerActivity, failedTransactions) := acc in
  (bump (Tx.userId t) userActivity,
   bump (Tx.providerId t) providerActivity,
   if TxStatus_eqb (Tx.status t) failed
   then (failedTransactions ++ [t])%list else failedTransactions).

(** The filter [{ createdAt: { $gte: start, $lte: end } }]. *)
Definition inPeriod (start finish : Z) (t : Tx.t) : bool :=
  (start <=? Tx.createdAt t) && (Tx.createdAt t <=? finish).

Definition generateFraudReport (startDate endDate : option Z)
  : Async Report.t :=
  await now <- Date_now;
  let start := default (now - 7 * 24 * 60 * 60 * 1000) startDate in
  let finish := default now endDate in
  await transactions <- OfferWallTransaction_find (inPeriod start finish);
  let '(userActivity, providerActivity, failedTransactions) :=
    fold_left reportStep transactions ([], [], []) in
  let suspiciousUsers :=
    List.filter (fun e : string * Z => 50 <? snd e) userActivity in
  await flaggedUsers <- getFlaggedUsers;
  ret (Report.mk start finish
         (Z.of_nat (length transactions))
         (Z.of_nat (length failedTransactions))
         suspiciousUsers
         flaggedUsers
         (take 10 (sortByCount userActivity))
         providerActivity).

(** ** Notions used to state the further properties *)

(** The records of the ledger created within a period. *)
Definition periodRecords (start finish : Z) (w : World) : list Tx.t :=
  List.filter (inPeriod start finish) (ledger w).

(** How many of the records have the key [k] under the projection [key]. *)
Definition countKey (key : Tx.t -> string) (k : string) (l : list Tx.t) : Z :=
  Z.of_nat (length (List.filter (fun t => String.eqb (key t) k) l)).

Definition sumCounts (m : list (string * Z)) : Z :=
  fold_right (fun e acc => snd e + acc) 0 m.

(** [a] comes no later than [b] in the order of [sortByCount]. *)
Definition countGe (a b : string * Z) : Prop := snd b <= snd a.

(** Every entry under a flag key is the flag document of that key's user. *)
Definition flagStoreWf (w : World) : Prop :=
  forall key doc expiresAt,
    redisStore w !! key = Some (doc, expiresAt) ->
    String.prefix FLAG_PREFIX key = true ->
    exists userId reason flaggedAt,
      key = flagKey userId /\ doc = FlagDoc userId reason flaggedAt.

(** The world a moment later. *)
Definition later (ms : Z) (w : World) : World := atTime (clock w + ms) w.

Definition SEVEN_DAYS_MS : Z := 7 * 86400 * 1000.

(** The ledger of [busyHourWorld] seen while the ledger is unreachable. *)
Definition ledgerDownWorld : World :=
  mkWorld (ledger busyHourWorld) ∅ false ∅ true T0 [].

(** A record of the ledger carries the external identifier [id]. *)
Definition hasExternalId (id : string) (w : World) : Prop :=
  exists r, In r (ledger w) /\ Tx.externalTransactionId r = id.

(** A record of the same user, provider and amount was created within the
    last 60 seconds. *)
Definition hasSimilarRecent (userId providerId : string) (amount : Z)
    (w : World) : Prop :=
  exists r, In r (ledger w)
            /\ Tx.userId r = userId /\ Tx.providerId r = providerId
            /\ Tx.convertedAmount r = amount
            /\ clock w - 60 * 1000 <= Tx.createdAt r.

(** How many of the records have an amount that is a multiple of 100. *)
Definition roundCount (l : list Tx.t) : Z :=
  Z.of_nat (length (List.filter
                      (fun t => Z.rem (Tx.convertedAmount t) 100 =? 0) l)).

(** One failed attempt thirty seconds ago. *)
Definition failedAttemptWorld : World :=
  worldOf [sampleTx 0 "alice" failed (T0 - 30000)] true.

(** Twenty-one records of one provider, twenty minutes apart. *)
Definition oneProviderWorld : World :=
  worldOf (burst 21 "alice" completed (T0 - 1000) 1200000) true.

(** An address with four users on file and a hundred requests counted. *)
Definition heavyIpWorld : World :=
  mkWorld [] ∅ true
    (<[ipKey "203.0.113.7" := (IpDoc ["u1"; "u2"; "u3"; "u4"] 100 (T0 - 1000),
                               T0 - 1000 + ONE_DAY * 1000)]> ∅)
    true T0 [].

(** [m.get(k) || 0] on a counter. *)
Fixpoint getCount (k : string) (m : list (string * Z)) : Z :=
  match m with
  | [] => 0
  | (k', n) :: rest => if String.eqb k' k then n else getCount k rest
  end.

(** A counter after one [bump] per record, under the key [key]. *)
Definition tally (key : Tx.t -> string) (l : list Tx.t) (m : list (string * Z))
  : list (string * Z) :=
  fold_left (fun acc t => bump (key t) acc) l m.

Definition isFailed (t : Tx.t) : bool := TxStatus_eqb (Tx.status t) failed.

(** Three users with three, two and one records in the last days, one of the
    records failed. *)
Definition reportWorld : World :=
  mkWorld
    [Tx.mk "e1" "alice" "p1" 500 completed (T0 - 1000);
     Tx.mk "e2" "bob" "p1" 300 completed (T0 - 2000);
     Tx.mk "e3" "alice" "p2" 500 failed (T0 - 3000);
     Tx.mk "e4" "carol" "p1" 100 pending (T0 - 4000);
     Tx.mk "e5" "alice" "p1" 500 completed (T0 - 5000);
     Tx.mk "e6" "bob" "p2" 700 completed (T0 - 6000);
     Tx.mk "e7" "dave" "p1" 700 completed (T0 - 8 * 86400 * 1000)]
    ∅ true ∅ false T0 [].

(** * Properties *)

(** ** Stepping through asynchronous code *)

Lemma bind_Returned {A B} (m : Async A) (k : A -> Async B) w a w' :
  m w = (Returned a, w') -> bind m k w = k a w'.
Proof. intros H. unfold bind. now rewrite H. Qed.

Lemma bind_Thrown {A B} (m : Async A) (k : A -> Async B) w e w' :
  m w = (Thrown e, w') -> bind m k w = (Thrown e, w').
Proof. intros H. unfold bind. now rewrite H. Qed.

Lemma mongoQuery_down {A} (q : World -> A) w :
  mongoUp w = false -> mongoQuery q w = (Thrown "MongoNetworkError", w).
Proof. intros H. unfold mongoQuery. now rewrite H. Qed.

(** ** Rational comparisons *)

Lemma Qltb_lt (x y : Q) : Qltb x y = true <-> (x < y)%Q.
Proof.
  unfold Qltb. rewrite negb_true_iff. split.
  - intros H. apply Qnot_le_lt. intros Hle.
    apply Qle_bool_iff in Hle. congruence.
  - intros H. destruct (Qle_bool y x) eqn:E; [|reflexivity].
    apply Qle_bool_iff in E. exfalso. exact (Qlt_not_le _ _ H E).
Qed.

Lemma Qltb_ge (x y : Q) : Qltb x y = false <-> (y <= x)%Q.
Proof.
  unfold Qltb. rewrite negb_false_iff. apply Qle_bool_iff.
Qed.

(** ** Lists of ledger records *)

Lemma filter_length_le {A} (f g : A -> bool) (l : list A) :
  (forall x, f x = true -> g x = true) ->
  (length (List.filter f l) <= length (List.filter g l))%nat.
Proof.
  intros Hfg. induction l as [|x l IH]; simpl; [lia|].
  destruct (f x) eqn:Ef.
  - rewrite (Hfg x Ef). simpl. lia.
  - destruct (g x); simpl; lia.
Qed.

Lemma filter_filter_and {A} (f g : A -> bool) (l : list A) :
  List.filter f (List.filter g l) = List.filter (fun x => g x && f x) l.
Proof.
  induction l as [|x l IH]; simpl; [reflexivity|].
  destruct (g x); simpl; [destruct (f x)|]; now rewrite IH.
Qed.

Lemma insertNewest_perm x l : Permutation (insertNewest x l) (x :: l).
Proof.
  induction l as [|y l IH]; simpl; [reflexivity|].
  destruct (Tx.createdAt y <=? Tx.createdAt x); [reflexivity|].
  rewrite IH. apply perm_swap.
Qed.

Lemma sortNewestFirst_perm l : Permutation (sortNewestFirst l) l.
Proof.
  induction l as [|x l IH]; simpl; [reflexivity|].
  rewrite insertNewest_perm. now constructor.
Qed.

Lemma sortNewestFirst_length l : length (sortNewestFirst l) = length l.
Proof. apply Permutation_length, sortNewestFirst_perm. Qed.

Lemma insertNewest_HdRel a x l :
  newerEq a x -> HdRel newerEq a l -> HdRel newerEq a (insertNewest x l).
Proof.
  intros Hax Hl. destruct l as [|y l]; simpl; [now constructor|].
  destruct (Tx.createdAt y <=? Tx.createdAt x); constructor; [assumption|].
  now inversion Hl.
Qed.

Lemma insertNewest_sorted x l :
  Sorted newerEq l -> Sorted newerEq (insertNewest x l).
Proof.
  induction 1 as [|y l Hs IH Hhd]; simpl; [repeat constructor|].
  destruct (Tx.createdAt y <=? Tx.createdAt x) eqn:E.
  - constructor; [now constructor|]. constructor. unfold newerEq. lia.
  - constructor; [assumption|].
    apply insertNewest_HdRel; [unfold newerEq; lia | assumption].
Qed.

Lemma sortNewestFirst_sorted l : Sorted newerEq (sortNewestFirst l).
Proof.
  induction l as [|x l IH]; simpl; [constructor|].
  now apply insertNewest_sorted.
Qed.

Lemma newerEq_trans : Relations_1.Transitive newerEq.
Proof. intros a b c. unfold newerEq. lia. Qed.

(** The head of the sorted records is a newest one. *)
Lemma sortNewestFirst_head l r :
  head (sortNewestFirst l) = Some r ->
  In r l /\ forall r', In r' l -> Tx.createdAt r' <= Tx.createdAt r.
Proof.
  intros Hh.
  pose proof (sortNewestFirst_perm l) as Hp.
  pose proof (Sorted_StronglySorted newerEq_trans (sortNewestFirst_sorted l)) as Hs.
  destruct (sortNewestFirst l) as [|y s]; [discriminate|].
  simpl in Hh. injection Hh as ->. split.
  - apply (Permutation_in _ Hp). now left.
  - intros r' Hr'. apply (Permutation_in _ (Permutation_sym Hp)) in Hr'.
    destruct Hr' as [->|Hin]; [lia|].
    apply StronglySorted_inv in Hs as [_ Hall].
    rewrite Forall_forall in Hall. apply Hall. now apply list_elem_of_In.
Qed.

Lemma sortNewestFirst_head_None l : head (sortNewestFirst l) = None -> l = [].
Proof.
  intros Hh. pose proof (sortNewestFirst_length l) as Hlen.
  destruct (sortNewestFirst l); [|discriminate].
  destruct l; [reflexivity|discriminate].
Qed.

(** ** Rate limiter *)

Lemma completedWithin_le_measured userId span w :
  completedWithin userId span w <= measuredCount userId span w.
Proof.
  unfold completedWithin, measuredCount. apply inj_le, filter_length_le.
  intros t. unfold completedOf, completedSince.
  rewrite !andb_true_iff. tauto.
Qed.

Lemma completedSince_isCompleted userId since l :
  List.filter (completedSince userId since) (List.filter isCompleted l)
  = List.filter (completedSince userId since) l.
Proof.
  rewrite filter_filter_and. apply filter_ext. intros t.
  unfold completedSince, isCompleted.
  destruct (TxStatus_eqb (Tx.status t) completed); simpl;
    [reflexivity | now rewrite andb_false_r].
Qed.

(** What [checkRateLimit] returns, by cases on the two measured counts. *)
Lemma checkRateLimit_run userId w :
  mongoUp w = true ->
  checkRateLimit userId w =
  (Returned
     (if 20 <=? measuredCount userId HOUR_MS w then
        Limit.mk false
          (Some ("Rate limit exceeded: " +:+ showZ (measuredCount userId HOUR_MS w)
                 +:+ "/20 per hour"))
          (Some 3600)
      else if 100 <=? measuredCount userId DAY_MS w then
        Limit.mk false
          (Some ("Daily limit exceeded: " +:+ showZ (measuredCount userId DAY_MS w)
                 +:+ "/100 per day"))
          (Some 86400)
      else Limit.mk true None None), w).
Proof.
  intros Hup. unfold checkRateLimit, bind, Date_now,
    OfferWallTransaction_countDocuments, mongoQuery, ret,
    measuredCount, HOUR_MS, DAY_MS, RATE_LIMIT_HOUR, RATE_LIMIT_DAY.
  rewrite Hup.
  destruct (20 <=? _); [reflexivity|].
  rewrite Hup.
  destruct (100 <=? _); reflexivity.
Qed.

(** C4 (as amended). With at least 20 completed records of the user created
    within the last hour, [checkRateLimit] refuses with [retryAfter = 3600]
    and a reason that shows the measured hourly count and the limit 20. With
    at least 100 completed records within the last 24 hours it refuses as
    well, and with [retryAfter = 86400] and the daily count and the limit 100
    in the reason when the measured hourly count is below 20: the hourly
    ceiling is tested first. Both counts depend on the completed records of
    the ledger only. *)
Theorem checkRateLimit_ceilings_C4 (userId : string) (w : World) :
  mongoUp w = true ->
  (20 <= completedWithin userId HOUR_MS w ->
     20 <= measuredCount userId HOUR_MS w /\
     checkRateLimit userId w =
     (Returned (Limit.mk false
        (Some ("Rate limit exceeded: " +:+ showZ (measuredCount userId HOUR_MS w)
               +:+ "/20 per hour"))
        (Some 3600)), w)) /\
  (100 <= completedWithin userId DAY_MS w ->
     (exists r, checkRateLimit userId w = (Returned r, w)
                /\ Limit.allowed r = false) /\
     (measuredCount userId HOUR_MS w < 20 ->
        100 <= measuredCount userId DAY_MS w /\
        checkRateLimit userId w =
        (Returned (Limit.mk false
           (Some ("Daily limit exceeded: " +:+ showZ (measuredCount userId DAY_MS w)
                  +:+ "/100 per day"))
           (Some 86400)), w))) /\
  (forall l, List.filter isCompleted l = List.filter isCompleted (ledger w) ->
     fst (checkRateLimit userId (withLedger l w)) = fst (checkRateLimit userId w)).
Proof.
  intros Hup. pose proof (checkRateLimit_run userId w Hup) as Hrun.
  split; [|split].
  - intros H20.
    pose proof (completedWithin_le_measured userId HOUR_MS w) as Hle.
    split; [lia|]. rewrite Hrun.
    destruct (Z.leb_spec 20 (measuredCount userId HOUR_MS w)); [reflexivity|lia].
  - intros H100.
    pose proof (completedWithin_le_measured userId DAY_MS w) as Hle.
    split.
    + rewrite Hrun.
      destruct (Z.leb_spec 20 (measuredCount userId HOUR_MS w)); [eauto|].
      destruct (Z.leb_spec 100 (measuredCount userId DAY_MS w)); [eauto|lia].
    + intros Hh. split; [lia|]. rewrite Hrun.
      destruct (Z.leb_spec 20 (measuredCount userId HOUR_MS w)); [lia|].
      destruct (Z.leb_spec 100 (measuredCount userId DAY_MS w)); [reflexivity|lia].
  - intros l Hl. rewrite Hrun.
    rewrite (checkRateLimit_run userId (withLedger l w) Hup). simpl.
    assert (Hm : forall span,
      measuredCount userId span (withLedger l w) = measuredCount userId span w).
    { intros span. unfold measuredCount. simpl.
      rewrite <- (completedSince_isCompleted _ _ l), Hl.
      now rewrite completedSince_isCompleted. }
    now rewrite !Hm.
Qed.

(** The claim C4 as written fails: here 100 completed records lie within
    the last 24 hours, and [retryAfter] is 3600, not 86400. *)
Lemma checkRateLimit_daily_not_86400_C4 :
  100 <= completedWithin "alice" DAY_MS busyHourWorld /\
  exists r, checkRateLimit "alice" busyHourWorld = (Returned r, busyHourWorld)
            /\ Limit.allowed r = false
            /\ Limit.retryAfter r = Some 3600
            /\ Limit.retryAfter r <> Some 86400.
Proof.
  split; [vm_compute; discriminate|].
  eexists. split; [vm_compute; reflexivity|].
  simpl. repeat split. discriminate.
Qed.

Lemma checkRateLimit_ceilings_C4_witness :
  checkRateLimit "alice" busyHourWorld
  = (Returned (Limit.mk false (Some "Rate limit exceeded: 100/20 per hour")
                 (Some 3600)), busyHourWorld)
  /\ checkRateLimit "alice" busyDayWorld
     = (Returned (Limit.mk false (Some "Daily limit exceeded: 100/100 per day")
                    (Some 86400)), busyDayWorld)
  /\ fst (checkRateLimit "alice"
            (withLedger (sampleTx 200 "alice" failed (T0 - 5) :: ledger busyDayWorld)
                        busyDayWorld))
     = fst (checkRateLimit "alice" busyDayWorld).
Proof.
  split; [|split].
  - destruct (checkRateLimit_ceilings_C4 "alice" busyHourWorld eq_refl)
      as [H _].
    destruct H as [_ H]; [vm_compute; discriminate|].
    rewrite H. vm_compute. reflexivity.
  - destruct (checkRateLimit_ceilings_C4 "alice" busyDayWorld eq_refl)
      as (_ & H & _).
    destruct H as [_ H]; [vm_compute; discriminate|].
    destruct H as [_ H]; [vm_compute; reflexivity|].
    rewrite H. vm_compute. reflexivity.
  - destruct (checkRateLimit_ceilings_C4 "alice" busyDayWorld eq_refl)
      as (_ & _ & H).
    apply H. vm_compute. reflexivity.
Defined.

(** ** Cooldown enforcer *)

Lemma checkCompletionCooldown_none userId w :
  mongoUp w = true ->
  List.filter (completedOf userId) (ledger w) = [] ->
  checkCompletionCooldown userId w = (Returned (Limit.mk true None None), w).
Proof.
  intros Hup Hnone.
  unfold checkCompletionCooldown, bind, OfferWallTransaction_findOne_newest,
    mongoQuery.
  now rewrite Hup, Hnone.
Qed.

(** With a completed record on file, the decision is taken on the age of a
    newest one. *)
Lemma checkCompletionCooldown_latest userId w r :
  mongoUp w = true ->
  isLatestCompleted userId w r ->
  checkCompletionCooldown userId w =
  (Returned
     (let elapsed := msToSeconds (clock w - Tx.createdAt r) in
      if Qltb elapsed (inject_Z 30) then
        Limit.mk false (Some "Cooldown period: 30s between completions")
          (Some (Qceiling (inject_Z 30 - elapsed)))
      else Limit.mk true None None), w).
Proof.
  intros Hup (Hin & Hc & Hmax).
  unfold checkCompletionCooldown, bind, OfferWallTransaction_findOne_newest,
    mongoQuery.
  rewrite Hup.
  destruct (head (sortNewestFirst (List.filter (completedOf userId) (ledger w))))
    as [last|] eqn:Hhead.
  - apply sortNewestFirst_head in Hhead as [Hlast Hnewest].
    apply filter_In in Hlast as [Hlin Hlc].
    assert (Heq : Tx.createdAt last = Tx.createdAt r).
    { apply Z.le_antisymm.
      - now apply Hmax.
      - apply Hnewest, filter_In. now split. }
    unfold Date_now, ret, MIN_COMPLETION_TIME. rewrite Heq. cbv zeta.
    destruct (Qltb _ _); reflexivity.
  - apply sortNewestFirst_head_None in Hhead.
    assert (Hr : In r (List.filter (completedOf userId) (ledger w)))
      by (apply filter_In; now split).
    rewrite Hhead in Hr. destruct Hr.
Qed.

Lemma Qceiling_pos_le (x : Q) (n : Z) :
  (0 < x)%Q -> (x <= inject_Z n)%Q -> 0 < Qceiling x <= n.
Proof.
  intros Hpos Hle. split.
  - pose proof (Qle_ceiling x) as Hc.
    assert (H0 : (inject_Z 0 < inject_Z (Qceiling x))%Q)
      by (eapply Qlt_le_trans; [exact Hpos | exact Hc]).
    now rewrite <- Zlt_Qlt in H0.
  - rewrite <- (Qceiling_Z n). now apply Qceiling_resp_le.
Qed.

Lemma Qceiling_above (x : Q) (n : Z) :
  (inject_Z n < x)%Q -> n < Qceiling x.
Proof.
  intros Hlt. pose proof (Qle_ceiling x) as Hc.
  assert (H0 : (inject_Z n < inject_Z (Qceiling x))%Q)
    by (eapply Qlt_le_trans; [exact Hlt | exact Hc]).
  now rewrite <- Zlt_Qlt in H0.
Qed.

(** C5 (as amended). For a user whose most recent completed record is
    [elapsed] seconds old: when [elapsed < 30], [checkCompletionCooldown]
    refuses with [retryAfter = ceil (30 - elapsed)], which is at least 1; it
    lies in (0, 30] when [elapsed >= 0], and exceeds 30 when the record is
    dated ahead of the clock ([elapsed < 0]). When [elapsed >= 31] the method
    allows. A user with no completed record is allowed. *)
Theorem checkCompletionCooldown_C5 (userId : string) (w : World) :
  mongoUp w = true ->
  (forall r, isLatestCompleted userId w r ->
     let elapsed := msToSeconds (clock w - Tx.createdAt r) in
     ((elapsed < 30)%Q ->
        checkCompletionCooldown userId w =
        (Returned (Limit.mk false
           (Some "Cooldown period: 30s between completions")
           (Some (Qceiling (30 - elapsed)))), w) /\
        1 <= Qceiling (30 - elapsed) /\
        ((0 <= elapsed)%Q -> 0 < Qceiling (30 - elapsed) <= 30) /\
        ((elapsed < 0)%Q -> 30 < Qceiling (30 - elapsed))) /\
     ((31 <= elapsed)%Q ->
        checkCompletionCooldown userId w =
        (Returned (Limit.mk true None None), w))) /\
  ((forall r, In r (ledger w) -> completedOf userId r = false) ->
     checkCompletionCooldown userId w = (Returned (Limit.mk true None None), w)).
Proof.
  intros Hup. split.
  - intros r Hr elapsed.
    pose proof (checkCompletionCooldown_latest userId w r Hup Hr) as Hrun.
    fold elapsed in Hrun. cbv zeta in Hrun.
    change (inject_Z 30) with 30%Q in Hrun. split.
    + intros Hlt.
      assert (Hpos : (0 < 30 - elapsed)%Q)
        by now apply (Qlt_minus_iff elapsed 30).
      split; [|split; [|split]].
      * rewrite Hrun. apply Qltb_lt in Hlt. now rewrite Hlt.
      * pose proof (Qceiling_above (30 - elapsed) 0 Hpos). lia.
      * intros Hge. apply Qceiling_pos_le; [exact Hpos|].
        change (inject_Z 30) with 30%Q. apply Qle_minus_iff.
        assert (Heq : (30 + - (30 - elapsed) == elapsed)%Q) by ring.
        rewrite Heq. exact Hge.
      * intros Hneg. apply Qceiling_above.
        change (inject_Z 30) with 30%Q. apply Qlt_minus_iff.
        assert (Heq : (30 - elapsed + - 30 == 0 + - elapsed)%Q) by ring.
        rewrite Heq. now apply (Qlt_minus_iff elapsed 0).
    + intros H31. rewrite Hrun.
      assert (Hge : (30 <= elapsed)%Q).
      { eapply Qle_trans; [|exact H31]. discriminate. }
      apply Qltb_ge in Hge. now rewrite Hge.
  - intros Hnone. apply checkCompletionCooldown_none; [assumption|].
    induction (ledger w) as [|t l IH]; simpl; [reflexivity|].
    rewrite (Hnone t) by now left.
    apply IH. intros r Hr. apply Hnone. now right.
Qed.

(** The claim C5 as written fails: the newest completed record is dated
    five seconds ahead of the clock, so [elapsed = -5 < 30], and
    [retryAfter] is 35, outside (0, 30]. *)
Lemma checkCompletionCooldown_clock_skew_C5 :
  isLatestCompleted "alice" skewWorld (sampleTx 0 "alice" completed (T0 + 5000))
  /\ (msToSeconds (clock skewWorld - (T0 + 5000)) < 30)%Q
  /\ checkCompletionCooldown "alice" skewWorld
     = (Returned (Limit.mk false
                    (Some "Cooldown period: 30s between completions")
                    (Some 35)), skewWorld)
  /\ ~ (0 < 35 <= 30).
Proof.
  split; [|split; [|split]].
  - split; [now left|]. split; [reflexivity|].
    intros r' [<-|[]] _. reflexivity.
  - reflexivity.
  - vm_compute. reflexivity.
  - lia.
Qed.

Lemma checkCompletionCooldown_C5_witness :
  checkCompletionCooldown "alice" tenSecondsWorld =
  (Returned (Limit.mk false (Some "Cooldown period: 30s between completions")
               (Some 20)), tenSecondsWorld) /\
  checkCompletionCooldown "alice" fortySecondsWorld =
  (Returned (Limit.mk true None None), fortySecondsWorld) /\
  checkCompletionCooldown "bob" tenSecondsWorld =
  (Returned (Limit.mk true None None), tenSecondsWorld) /\
  30 < Qceiling (30 - msToSeconds (clock skewWorld - (T0 + 5000))).
Proof.
  split; [|split; [|split]].
  - destruct (checkCompletionCooldown_C5 "alice" tenSecondsWorld eq_refl)
      as [H _].
    destruct (H (sampleTx 0 "alice" completed (T0 - 10000))) as [[H1 _] _].
    + split; [now left|]. split; [reflexivity|].
      intros r' [<-|[]] _. reflexivity.
    + reflexivity.
    + exact H1.
  - destruct (checkCompletionCooldown_C5 "alice" fortySecondsWorld eq_refl)
      as [H _].
    destruct (H (sampleTx 0 "alice" completed (T0 - 40000))) as [_ H2].
    + split; [now left|]. split; [reflexivity|].
      intros r' [<-|[]] _. reflexivity.
    + apply H2. discriminate.
  - destruct (checkCompletionCooldown_C5 "bob" tenSecondsWorld eq_refl)
      as [_ H].
    apply H. intros r [<-|[]]. reflexivity.
  - destruct (checkCompletionCooldown_C5 "alice" skewWorld eq_refl)
      as [H _].
    destruct (H (sampleTx 0 "alice" completed (T0 + 5000)))
      as [(_ & _ & _ & H4) _].
    + split; [now left|]. split; [reflexivity|].
      intros r' [<-|[]] _. reflexivity.
    + reflexivity.
    + apply H4. reflexivity.
Defined.

(** ** Runs of the read-only checks *)

Lemma checkDuplicate_run externalTransactionId userId amount providerId w :
  mongoUp w = true ->
  exists r, checkDuplicate externalTransactionId userId amount providerId w
            = (Returned r, w).
Proof.
  intros Hup.
  unfold checkDuplicate, bind, OfferWallTransaction_findByExternalId,
    OfferWallTransaction_findOne, mongoQuery, Date_now, ret.
  rewrite Hup. destruct (List.find _ (ledger w)); [eauto|].
  rewrite Hup. destruct (List.find _ (ledger w)); eauto.
Qed.

Lemma checkDuplicate_exact externalTransactionId userId amount providerId w r :
  mongoUp w = true ->
  In r (ledger w) ->
  Tx.externalTransactionId r = externalTransactionId ->
  checkDuplicate externalTransactionId userId amount providerId w
  = (Returned (Dup.mk true (Some "Transaction ID already exists")), w).
Proof.
  intros Hup Hin Hid.
  unfold checkDuplicate, bind, OfferWallTransaction_findByExternalId,
    mongoQuery, ret.
  rewrite Hup.
  destruct (List.find _ (ledger w)) eqn:Hfind; [reflexivity|].
  apply (find_none _ _ Hfind) in Hin. simpl in Hin.
  rewrite Hid, String.eqb_refl in Hin. discriminate.
Qed.

Lemma checkCompletionCooldown_run userId w :
  mongoUp w = true ->
  exists r, checkCompletionCooldown userId w = (Returned r, w).
Proof.
  intros Hup.
  unfold checkCompletionCooldown, bind, OfferWallTransaction_findOne_newest,
    mongoQuery, Date_now, ret.
  rewrite Hup. destruct (head _); [|eauto].
  destruct (Qltb _ _); eauto.
Qed.

Lemma analyzeUserActivity_run userId w :
  mongoUp w = true ->
  analyzeUserActivity userId w
  = (Returned (analyzeTransactions userId (clock w) (recentTransactions userId w)),
     w).
Proof.
  intros Hup.
  unfold analyzeUserActivity, bind, Date_now,
    OfferWallTransaction_find_newest, mongoQuery, ret.
  now rewrite Hup.
Qed.

Lemma calculateRiskScore_run userId w :
  mongoUp w = true ->
  calculateRiskScore userId w
  = (Returned
       (riskScoreFrom
          (analyzeTransactions userId (clock w) (recentTransactions userId w))
          (accounts w !! userId) (clock w)), w).
Proof.
  intros Hup. unfold calculateRiskScore.
  rewrite (bind_Returned _ _ _ _ _ (analyzeUserActivity_run userId w Hup)).
  unfold bind, User_findById, mongoQuery, Date_now, ret, riskScoreFrom.
  rewrite Hup. destruct (accounts w !! userId); simpl; [reflexivity|].
  now rewrite Z.add_0_r.
Qed.

Lemma activityRisk_nonneg activity : 0 <= activityRisk activity.
Proof.
  unfold activityRisk.
  repeat match goal with |- context [if ?c then _ else _] => destruct c end;
    lia.
Qed.

Lemma newAccountRisk_nonneg user now activity :
  0 <= newAccountRisk user now activity.
Proof.
  unfold newAccountRisk. destruct user; [|lia].
  match goal with |- context [if ?c then _ else _] => destruct c end; lia.
Qed.

Lemma riskScoreFrom_range activity user now :
  0 <= riskScoreFrom activity user now <= 100.
Proof.
  unfold riskScoreFrom.
  pose proof (activityRisk_nonneg activity).
  pose proof (newAccountRisk_nonneg user now activity). lia.
Qed.

(** [calculateRiskScore] returns a score in [[0, 100]]. *)
Lemma calculateRiskScore_range userId w :
  mongoUp w = true ->
  exists s, calculateRiskScore userId w = (Returned s, w) /\ 0 <= s <= 100.
Proof.
  intros Hup. eexists. split; [now apply calculateRiskScore_run|].
  apply riskScoreFrom_range.
Qed.

(** ** The flag store *)

(** [flagUserForReview] never throws: a refused write is logged. *)
Lemma flagUserForReview_run userId reason w :
  flagUserForReview userId reason w
  = (Returned tt,
     if redisUp w then flagged userId reason w
     else addLog (error, "Error flagging user:") w).
Proof.
  unfold flagUserForReview, tryCatch, bind, Date_now, redis_setex, logger,
    flagged.
  destruct (redisUp w); reflexivity.
Qed.

Lemma flagged_lookup userId reason w :
  redisStore (flagged userId reason w) !! flagKey userId
  = Some (FlagDoc userId reason (clock w), clock w + 7 * 86400 * 1000).
Proof.
  unfold flagged. cbn [redisStore setRedisStore addLog].
  now rewrite lookup_insert_eq.
Qed.

Lemma flagged_persisted userId reason w :
  flagPersisted userId (flagged userId reason w).
Proof.
  do 3 eexists. split; [apply flagged_lookup|].
  unfold flagged. cbn [clock addLog setRedisStore]. lia.
Qed.

Lemma flagged_logs userId reason w :
  In (warn, "User flagged for fraud review") (logs (flagged userId reason w)).
Proof.
  unfold flagged. cbn [logs addLog setRedisStore].
  apply in_or_app. right. now left.
Qed.

(** ** The orchestrator *)

(** The run of [checkForFraud] on a reachable ledger, in terms of the
    results of its three checks. *)
Lemma checkForFraud_run userId externalTransactionId amount providerId w
    dup rate cool :
  mongoUp w = true ->
  checkDuplicate externalTransactionId userId amount providerId w
    = (Returned dup, w) ->
  checkRateLimit userId w = (Returned rate, w) ->
  checkCompletionCooldown userId w = (Returned cool, w) ->
  let activity :=
    analyzeTransactions userId (clock w) (recentTransactions userId w) in
  let instant :=
    (if Dup.isDuplicate dup then 100 else 0)
    + (if Limit.allowed rate then 0 else 50)
    + (if Limit.allowed cool then 0 else 30) in
  let score :=
    Z.max instant (riskScoreFrom activity (accounts w !! userId) (clock w)) in
  let why :=
    ((if Dup.isDuplicate dup then [nonNull (Dup.reason dup)] else [])
     ++ (if Limit.allowed rate then [] else [nonNull (Limit.reason rate)])
     ++ (if Limit.allowed cool then [] else [nonNull (Limit.reason cool)])
     ++ Activity.suspiciousPatterns activity)%list in
  let act :=
    if 70 <=? score then block else if 40 <=? score then flag else allow in
  let logged := addLog (info, "Fraud check completed") w in
  checkForFraud userId externalTransactionId amount providerId w
  = (Returned (mkFraudCheckResult (Action_eqb act block) why score act),
     if Action_eqb act block
     then snd (flagUserForReview userId (String.concat ", " why) logged)
     else logged).
Proof.
  intros Hup Hdup Hrate Hcool. cbv zeta. unfold checkForFraud.
  rewrite (bind_Returned _ _ _ _ _ Hdup).
  destruct (Dup.isDuplicate dup);
    rewrite (bind_Returned _ _ _ _ _ Hrate);
    destruct (Limit.allowed rate); cbn [negb];
    rewrite (bind_Returned _ _ _ _ _ Hcool);
    destruct (Limit.allowed cool); cbn [negb];
    rewrite (bind_Returned _ _ _ _ _ (calculateRiskScore_run userId w Hup));
    rewrite (bind_Returned _ _ _ _ _ (analyzeUserActivity_run userId w Hup));
    change HIGH_RISK_THRESHOLD with 70; change MEDIUM_RISK_THRESHOLD with 40;
    cbn [app]; rewrite ?Z.add_0_r, ?Z.add_0_l;
    unfold bind at 1; unfold logger at 1;
    match goal with |- context [Z.max ?a ?b] => generalize (Z.max a b) end;
    intros score;
    (destruct (70 <=? score);
     [| destruct (40 <=? score)]);
    cbn [Action_eqb]; unfold bind, ret;
    try rewrite flagUserForReview_run; reflexivity.
Qed.

Lemma checkForFraud_mongo_down userId externalTransactionId amount providerId w :
  mongoUp w = false ->
  checkForFraud userId externalTransactionId amount providerId w
  = (Thrown "MongoNetworkError", w).
Proof.
  intros Hdown. unfold checkForFraud. apply bind_Thrown.
  unfold checkDuplicate. apply bind_Thrown.
  now apply mongoQuery_down.
Qed.

(** C1. When a record with the same external transaction identifier and a
    non-failed status is already in the ledger, [checkForFraud] returns the
    action [block] with [isFraudulent = true], whatever the rate limiter,
    the cooldown, the behavioural metrics and the account age say. *)
Theorem checkForFraud_duplicate_blocks_C1
    (userId externalTransactionId : string) (amount : Z) (providerId : string)
    (w : World) :
  mongoUp w = true ->
  (exists r, In r (ledger w)
             /\ Tx.externalTransactionId r = externalTransactionId
             /\ Tx.status r <> failed) ->
  exists d w',
    checkForFraud userId externalTransactionId amount providerId w
      = (Returned d, w')
    /\ action d = block /\ isFraudulent d = true.
Proof.
  intros Hup (r & Hin & Hid & _).
  pose proof (checkDuplicate_exact _ userId amount providerId w r Hup Hin Hid)
    as Hdup.
  pose proof (checkRateLimit_run userId w Hup) as Hrate.
  destruct (checkCompletionCooldown_run userId w Hup) as [cool Hcool].
  pose proof (checkForFraud_run _ _ _ _ _ _ _ _ Hup Hdup Hrate Hcool) as Hrun.
  cbv zeta in Hrun. cbn [Dup.isDuplicate] in Hrun.
  match type of Hrun with context [Z.max ?a ?b] =>
    assert (Hscore : 100 <= Z.max a b)
      by (destruct (Limit.allowed _); destruct (Limit.allowed cool); lia);
    revert Hrun Hscore; generalize (Z.max a b)
  end.
  intros score Hrun Hscore.
  destruct (Z.leb_spec 70 score) as [_|Hlt]; [|lia].
  do 2 eexists. split; [exact Hrun|]. split; reflexivity.
Qed.

Lemma checkForFraud_duplicate_blocks_C1_witness :
  exists d w',
    checkForFraud "alice" "ext-0" 500 "provider-1" tenSecondsWorld
      = (Returned d, w')
    /\ action d = block /\ isFraudulent d = true.
Proof.
  apply (checkForFraud_duplicate_blocks_C1 "alice" "ext-0" 500 "provider-1"
           tenSecondsWorld).
  - reflexivity.
  - exists (sampleTx 0 "alice" completed (T0 - 10000)).
    split; [now left|]. split; [reflexivity|discriminate].
Defined.

(** C2, at the failing input: the replay, ten seconds later, of an external
    transaction identifier that is already on file. The duplicate adds 100
    and the cooldown 30, and [checkForFraud] returns the sum unclamped. *)
Theorem checkForFraud_riskScore_above_100_C2 :
  exists d w',
    checkForFraud "alice" "ext-0" 500 "provider-1" tenSecondsWorld
      = (Returned d, w')
    /\ riskScore d = 130 /\ ~ (0 <= riskScore d <= 100).
Proof.
  do 2 eexists. split; [vm_compute; reflexivity|].
  simpl. split; [reflexivity|lia].
Qed.

(** The score of [checkForFraud] stays within [[0, 180]]. *)
Lemma checkForFraud_riskScore_range userId externalTransactionId amount
    providerId w d w' :
  checkForFraud userId externalTransactionId amount providerId w
    = (Returned d, w') ->
  0 <= riskScore d <= 180.
Proof.
  intros Hrun.
  destruct (mongoUp w) eqn:Hup;
    [|rewrite checkForFraud_mongo_down in Hrun by assumption; discriminate].
  destruct (checkDuplicate_run externalTransactionId userId amount providerId
              w Hup) as [dup Hdup].
  pose proof (checkRateLimit_run userId w Hup) as Hrate.
  destruct (checkCompletionCooldown_run userId w Hup) as [cool Hcool].
  rewrite (checkForFraud_run _ _ _ _ _ _ _ _ Hup Hdup Hrate Hcool) in Hrun.
  injection Hrun as <- _. cbn [riskScore].
  match goal with |- context [riskScoreFrom ?a ?u ?n] =>
    pose proof (riskScoreFrom_range a u n) end.
  destruct (Dup.isDuplicate dup); destruct (Limit.allowed _);
    destruct (Limit.allowed cool); lia.
Qed.

(** C3 (as amended). When [checkForFraud] returns the action [block], it has
    attempted the flag write before returning: with the store reachable the
    user's [FraudFlag] is on file, carrying the joined reasons and a 7-day
    expiry; with the store unreachable the failed write is logged, nothing is
    stored, and the block decision is returned all the same. *)
Theorem checkForFraud_block_flag_write_C3
    (userId externalTransactionId : string) (amount : Z) (providerId : string)
    (w w' : World) (d : FraudCheckResult) :
  checkForFraud userId externalTransactionId amount providerId w
    = (Returned d, w') ->
  action d = block ->
  (redisUp w = true ->
     redisStore w' !! flagKey userId
       = Some (FlagDoc userId (String.concat ", " (reasons d)) (clock w),
               clock w + 7 * 86400 * 1000)
     /\ flagPersisted userId w'
     /\ In (warn, "User flagged for fraud review") (logs w')) /\
  (redisUp w = false ->
     redisStore w' = redisStore w
     /\ In (error, "Error flagging user:") (logs w')).
Proof.
  intros Hrun Hblock.
  destruct (mongoUp w) eqn:Hup;
    [|rewrite checkForFraud_mongo_down in Hrun by assumption; discriminate].
  destruct (checkDuplicate_run externalTransactionId userId amount providerId
              w Hup) as [dup Hdup].
  pose proof (checkRateLimit_run userId w Hup) as Hrate.
  destruct (checkCompletionCooldown_run userId w Hup) as [cool Hcool].
  rewrite (checkForFraud_run _ _ _ _ _ _ _ _ Hup Hdup Hrate Hcool) in Hrun.
  cbv zeta in Hrun.
  match type of Hrun with context [Z.max ?a ?b] =>
    revert Hrun; generalize (Z.max a b) end.
  intros score Hrun.
  injection Hrun as <- <-. cbn [action reasons] in *.
  rewrite Hblock. cbn [Action_eqb].
  rewrite flagUserForReview_run. cbn [snd redisUp addLog].
  split; intros Hredis; rewrite Hredis.
  - split; [|split].
    + exact (flagged_lookup _ _ (addLog (info, "Fraud check completed") w)).
    + apply flagged_persisted.
    + apply flagged_logs.
  - cbn [redisStore logs]. split; [reflexivity|].
    apply in_or_app. right. now left.
Qed.

(** The claim C3 as written fails: with the key-value store down,
    [checkForFraud] returns a block decision and no flag is on file. *)
Lemma checkForFraud_block_without_flag_C3 :
  exists d w',
    checkForFraud "alice" "ext-0" 500 "provider-1" storeDownWorld
      = (Returned d, w')
    /\ action d = block
    /\ redisStore w' !! flagKey "alice" = None
    /\ ~ flagPersisted "alice" w'.
Proof.
  do 2 eexists. split; [vm_compute; reflexivity|].
  split; [reflexivity|]. split; [reflexivity|].
  intros (reason & flaggedAt & expiresAt & Hlook & _).
  vm_compute in Hlook. discriminate.
Qed.

Lemma checkForFraud_block_flag_write_C3_witness :
  redisStore replayWorld !! flagKey "alice"
    = Some (FlagDoc "alice"
              "Transaction ID already exists, Cooldown period: 30s between completions"
              T0, T0 + 7 * 86400 * 1000)
  /\ (redisStore replayStoreDownWorld = redisStore storeDownWorld
      /\ In (error, "Error flagging user:") (logs replayStoreDownWorld)).
Proof.
  split.
  - destruct (checkForFraud_block_flag_write_C3
                "alice" "ext-0" 500 "provider-1"
                tenSecondsWorld replayWorld replayDecision) as [H _].
    + vm_compute. reflexivity.
    + reflexivity.
    + destruct (H eq_refl) as [H1 _]. exact H1.
  - destruct (checkForFraud_block_flag_write_C3
                "alice" "ext-0" 500 "provider-1"
                storeDownWorld replayStoreDownWorld replayDecision) as [_ H].
    + vm_compute. reflexivity.
    + reflexivity.
    + exact (H eq_refl).
Defined.

(** ** Behavioural analyzer *)

Lemma recentTransactions_perm userId w :
  Permutation (recentTransactions userId w)
    (List.filter (recentOf userId (clock w - DAY_MS)) (ledger w)).
Proof. apply sortNewestFirst_perm. Qed.

Lemma completionsLast24h_length userId now l :
  Activity.completionsLast24h (analyzeTransactions userId now l)
  = Z.of_nat (length l).
Proof.
  unfold analyzeTransactions. now destruct (gapLoop l 0 0).
Qed.

(** C6 (as amended). [analyzeUserActivity] computes its metrics over all the
    ledger records of the user whose [createdAt] lies within the last 24
    hours, of any status and however many, ordered newest first; records of
    other users and records older than 24 hours do not affect the result. *)
Theorem analyzeUserActivity_window_C6 (userId : string) (w : World) :
  mongoUp w = true ->
  analyzeUserActivity userId w
    = (Returned (analyzeTransactions userId (clock w)
                   (recentTransactions userId w)), w)
  /\ Permutation (recentTransactions userId w)
       (List.filter
          (fun t => String.eqb (Tx.userId t) userId
                    && (clock w - 24 * 60 * 60 * 1000 <=? Tx.createdAt t))
          (ledger w))
  /\ Sorted newerEq (recentTransactions userId w)
  /\ (forall a, fst (analyzeUserActivity userId w) = Returned a ->
        Activity.completionsLast24h a
        = Z.of_nat (length (List.filter
            (fun t => String.eqb (Tx.userId t) userId
                      && (clock w - 24 * 60 * 60 * 1000 <=? Tx.createdAt t))
            (ledger w))))
  /\ (forall l,
        List.filter (recentOf userId (clock w - DAY_MS)) l
        = List.filter (recentOf userId (clock w - DAY_MS)) (ledger w) ->
        fst (analyzeUserActivity userId (withLedger l w))
        = fst (analyzeUserActivity userId w)).
Proof.
  intros Hup. pose proof (analyzeUserActivity_run userId w Hup) as Hrun.
  split; [exact Hrun|]. split; [apply recentTransactions_perm|].
  split; [apply sortNewestFirst_sorted|]. split.
  - intros a Ha. rewrite Hrun in Ha. injection Ha as <-.
    rewrite completionsLast24h_length.
    f_equal. apply Permutation_length, recentTransactions_perm.
  - intros l Hl.
    rewrite Hrun, (analyzeUserActivity_run userId (withLedger l w) Hup).
    cbn [fst]. unfold recentTransactions. cbn [ledger clock withLedger].
    now rewrite Hl.
Qed.

Lemma analyzeUserActivity_window_C6_witness :
  fst (analyzeUserActivity "alice" pendingWorld)
  = Returned (Activity.mk "alice" 1 1 0 1 []).
Proof.
  destruct (analyzeUserActivity_window_C6 "alice" pendingWorld eq_refl)
    as [H _].
  rewrite H. vm_compute. reflexivity.
Defined.

(** The claim C6 as written fails. A pending record is counted, and so is
    the 101st record of a day. *)
Lemma analyzeUserActivity_not_spec_C6 :
  (exists a, analyzeUserActivity "alice" pendingWorld = (Returned a, pendingWorld)
             /\ Activity.completionsLast24h a = 1
             /\ Activity.completionsLast24h
                  (analyzeUserActivity_spec "alice" pendingWorld) = 0
             /\ a <> analyzeUserActivity_spec "alice" pendingWorld)
  /\ (exists a, analyzeUserActivity "alice" manyWorld = (Returned a, manyWorld)
                /\ Activity.completionsLast24h a = 101
                /\ Activity.completionsLast24h
                     (analyzeUserActivity_spec "alice" manyWorld) = 100
                /\ a <> analyzeUserActivity_spec "alice" manyWorld).
Proof.
  split; eexists; (split; [vm_compute; reflexivity|]);
    (split; [reflexivity|]); (split; [vm_compute; reflexivity|]);
    intros H; apply (f_equal Activity.completionsLast24h) in H;
    vm_compute in H; discriminate.
Qed.

Lemma gapLoop_pairs l total pairs :
  snd (gapLoop l total pairs) = pairs + Z.of_nat (Nat.pred (length l)).
Proof.
  revert total pairs. induction l as [|a l IH]; intros total pairs.
  - simpl. lia.
  - destruct l as [|b l].
    + simpl. lia.
    + change (gapLoop (a :: b :: l) total pairs)
        with (gapLoop (b :: l) (total + (Tx.createdAt a - Tx.createdAt b))
                      (pairs + 1)).
      rewrite IH. simpl length. simpl Nat.pred. lia.
Qed.

Lemma fast_label_in (c1 c2 c3 c4 : bool) :
  In FAST_COMPLETIONS
    ((if c1 then [HIGH_RATE] else [])
     ++ (if c2 then [FAST_COMPLETIONS] else [])
     ++ (if c3 then [SINGLE_PROVIDER] else [])
     ++ (if c4 then [ROUND_AMOUNTS] else []))%list
  <-> c2 = true.
Proof.
  split.
  - destruct c2; [reflexivity|]. intros H.
    destruct c1, c3, c4; simpl in H;
      repeat (destruct H as [H|H]; [discriminate H|]); destruct H.
  - intros ->. apply in_or_app. right. now left.
Qed.

(** The label and the average, on the fetched records. *)
Lemma analyzeTransactions_fast userId now l :
  let a := analyzeTransactions userId now l in
  (In FAST_COMPLETIONS (Activity.suspiciousPatterns a)
   <-> (Activity.avgCompletionTime a < 60)%Q /\ (7 <= length l)%nat)
  /\ ((length l < 2)%nat -> Activity.avgCompletionTime a = 0%Q).
Proof.
  pose proof (gapLoop_pairs l 0 0) as Hpairs.
  unfold analyzeTransactions.
  destruct (gapLoop l 0 0) as [total pairs]. cbn [snd] in Hpairs.
  cbn [Activity.suspiciousPatterns Activity.avgCompletionTime]. split.
  - rewrite fast_label_in, andb_true_iff, Qltb_lt, Z.ltb_lt.
    change (inject_Z 60) with 60%Q.
    assert (Hseven : 5 < pairs <-> (7 <= length l)%nat) by lia.
    tauto.
  - intros Hlen. destruct (Z.ltb_spec 0 pairs); [lia|reflexivity].
Qed.

(** C7 (as amended). [analyzeUserActivity] reports the label "Unusually fast
    completions" exactly when [avgCompletionTime < 60] and the loop has seen
    more than 5 consecutive pairs, that is when the fetched window holds at
    least 7 records; [avgCompletionTime] is 0 whenever the window holds fewer
    than two records. *)
Theorem analyzeUserActivity_fast_label_C7 (userId : string) (w : World) :
  mongoUp w = true ->
  exists a,
    analyzeUserActivity userId w = (Returned a, w)
    /\ (In FAST_COMPLETIONS (Activity.suspiciousPatterns a)
        <-> (Activity.avgCompletionTime a < 60)%Q
            /\ (7 <= length (recentTransactions userId w))%nat)
    /\ ((length (recentTransactions userId w) < 2)%nat ->
        Activity.avgCompletionTime a = 0%Q).
Proof.
  intros Hup. eexists. split; [now apply analyzeUserActivity_run|].
  apply analyzeTransactions_fast.
Qed.

Lemma analyzeUserActivity_fast_label_C7_witness :
  exists a,
    analyzeUserActivity "alice" sevenWorld = (Returned a, sevenWorld)
    /\ In FAST_COMPLETIONS (Activity.suspiciousPatterns a).
Proof.
  destruct (analyzeUserActivity_fast_label_C7 "alice" sevenWorld eq_refl)
    as (a & Hrun & Hfast & _).
  exists a. split; [exact Hrun|].
  apply Hfast.
  assert (Ha : a = analyzeTransactions "alice" T0
                     (recentTransactions "alice" sevenWorld)).
  { rewrite (analyzeUserActivity_run "alice" sevenWorld eq_refl) in Hrun.
    now injection Hrun. }
  rewrite Ha. split; [vm_compute; reflexivity | vm_compute; lia].
Defined.

(** The claim C7 as written fails: six records ten seconds apart average
    10 seconds, and the label is not reported. *)
Lemma analyzeUserActivity_six_records_C7 :
  exists a,
    analyzeUserActivity "alice" sixWorld = (Returned a, sixWorld)
    /\ length (recentTransactions "alice" sixWorld) = 6%nat
    /\ Activity.completionsLast24h a = 6
    /\ (Activity.avgCompletionTime a < 60)%Q
    /\ ~ In FAST_COMPLETIONS (Activity.suspiciousPatterns a).
Proof.
  eexists. split; [vm_compute; reflexivity|].
  split; [vm_compute; reflexivity|]. split; [reflexivity|].
  split; [reflexivity|].
  simpl. intros H. exact H.
Qed.

(** ** Risk scorer *)

Lemma Qltb_antimono (q q' bound : Q) :
  (q' <= q)%Q -> Qltb q bound = true -> Qltb q' bound = true.
Proof.
  rewrite !Qltb_lt. intros Hle Hlt. eapply Qle_lt_trans; eassumption.
Qed.

Lemma Qltb_thresholds (q : Q) :
  Qltb q (inject_Z 30) = true -> Qltb q (inject_Z 60) = true.
Proof.
  rewrite !Qltb_lt. intros H. eapply Qlt_trans; [exact H|reflexivity].
Qed.

(** C8. The score of [calculateRiskScore] is [riskScoreFrom] of the user's
    activity, account and the clock, and [riskScoreFrom] does not decrease
    when, the other signals being kept, [completionsLastHour] grows,
    [avgCompletionTime] shrinks, or one more suspicious-pattern label is
    added. *)
Theorem calculateRiskScore_monotone_C8 :
  (forall userId w, mongoUp w = true ->
     calculateRiskScore userId w
     = (Returned (riskScoreFrom
                    (analyzeTransactions userId (clock w)
                       (recentTransactions userId w))
                    (accounts w !! userId) (clock w)), w))
  /\ (forall a user now n n', n <= n' ->
        riskScoreFrom (withCompletionsLastHour n a) user now
        <= riskScoreFrom (withCompletionsLastHour n' a) user now)
  /\ (forall a user now q q', (q' <= q)%Q ->
        riskScoreFrom (withAvgCompletionTime q a) user now
        <= riskScoreFrom (withAvgCompletionTime q' a) user now)
  /\ (forall a user now label,
        riskScoreFrom a user now <= riskScoreFrom (withPattern label a) user now).
Proof.
  split; [exact calculateRiskScore_run|]. split; [|split].
  - intros a user now n n' Hle. unfold riskScoreFrom.
    apply Z.min_le_compat_r, Z.add_le_mono; [|reflexivity].
    unfold activityRisk, withCompletionsLastHour.
    cbn [Activity.completionsLastHour Activity.avgCompletionTime
         Activity.uniqueProviders Activity.completionsLast24h
         Activity.suspiciousPatterns].
    destruct (Z.ltb_spec 15 n), (Z.ltb_spec 15 n'),
             (Z.ltb_spec 10 n), (Z.ltb_spec 10 n'); try lia;
      repeat match goal with
             | |- context [if ?c then _ else _] => destruct c
             end; lia.
  - intros a user now q q' Hle. unfold riskScoreFrom.
    apply Z.min_le_compat_r, Z.add_le_mono; [|reflexivity].
    unfold activityRisk, withAvgCompletionTime.
    cbn [Activity.completionsLastHour Activity.avgCompletionTime
         Activity.uniqueProviders Activity.completionsLast24h
         Activity.suspiciousPatterns].
    pose proof (Qltb_antimono q q' (inject_Z 30) Hle) as H30.
    pose proof (Qltb_antimono q q' (inject_Z 60) Hle) as H60.
    pose proof (Qltb_thresholds q') as Hq'.
    destruct (Qltb q (inject_Z 30)), (Qltb q (inject_Z 60)),
             (Qltb q' (inject_Z 30)), (Qltb q' (inject_Z 60));
      try (specialize (H30 eq_refl)); try (specialize (H60 eq_refl));
      try (specialize (Hq' eq_refl)); try discriminate;
      repeat match goal with
             | |- context [if ?c then _ else _] => destruct c
             end; lia.
  - intros a user now label. unfold riskScoreFrom.
    apply Z.min_le_compat_r, Z.add_le_mono; [|reflexivity].
    unfold activityRisk, withPattern.
    cbn [Activity.completionsLastHour Activity.avgCompletionTime
         Activity.uniqueProviders Activity.completionsLast24h
         Activity.suspiciousPatterns].
    rewrite length_app. cbn [length].
    repeat match goal with
             | |- context [if ?c then _ else _] => destruct c
             end; lia.
Qed.

Lemma calculateRiskScore_monotone_C8_witness :
  riskScoreFrom (withCompletionsLastHour 12 sampleActivity) None T0
  <= riskScoreFrom (withCompletionsLastHour 16 sampleActivity) None T0
  /\ riskScoreFrom (withAvgCompletionTime (45 # 1) sampleActivity) None T0
     <= riskScoreFrom (withAvgCompletionTime (20 # 1) sampleActivity) None T0.
Proof.
  destruct calculateRiskScore_monotone_C8 as (_ & Hhour & Havg & _).
  split.
  - apply Hhour. lia.
  - apply Havg. discriminate.
Defined.

(** ** Flag lookup *)

(** C10. [isUserFlagged] never throws. When the read of the flag store
    throws it logs the error and returns [false], so that a user whose flag
    is on file is reported as not flagged while the store is unreachable;
    with the store reachable that user is reported as flagged. *)
Theorem isUserFlagged_store_error_C10 (userId : string) (w : World) :
  (exists b w', isUserFlagged userId w = (Returned b, w'))
  /\ (redisUp w = false ->
        isUserFlagged userId w
        = (Returned false, addLog (error, "Error checking user flag:") w))
  /\ (redisUp w = false -> flagPersisted userId w ->
        fst (isUserFlagged userId w) = Returned false)
  /\ (redisUp w = true -> flagPersisted userId w ->
        fst (isUserFlagged userId w) = Returned true).
Proof.
  unfold isUserFlagged, tryCatch, bind, redis_get, liveValue, logger, ret.
  destruct (redisUp w) eqn:Hredis.
  - split; [eauto|]. split; [discriminate|]. split; [discriminate|].
    intros _ (reason & flaggedAt & expiresAt & Hlook & Hlive).
    rewrite Hlook. apply Z.ltb_lt in Hlive. now rewrite Hlive.
  - split; [eauto|]. split; [reflexivity|]. split; [reflexivity|discriminate].
Qed.

Lemma isUserFlagged_store_error_C10_witness :
  flagPersisted "alice" flaggedStoreDownWorld
  /\ fst (isUserFlagged "alice" flaggedStoreDownWorld) = Returned false.
Proof.
  assert (Hflag : flagPersisted "alice" flaggedStoreDownWorld).
  { do 3 eexists. split; [vm_compute; reflexivity|]. vm_compute. reflexivity. }
  split; [exact Hflag|].
  destruct (isUserFlagged_store_error_C10 "alice" flaggedStoreDownWorld)
    as (_ & _ & H & _).
  exact (H eq_refl Hflag).
Defined.

(** ** IP abuse tracker *)

Lemma existsb_eqb_In u (us : list string) :
  existsb (String.eqb u) us = true <-> In u us.
Proof.
  rewrite existsb_exists. split.
  - intros (x & Hin & Heq). apply String.eqb_eq in Heq. now subst.
  - intros Hin. exists u. split; [assumption|apply String.eqb_refl].
Qed.

Lemma addUser_new u us : ~ In u us -> addUser u us = (us ++ [u])%list.
Proof.
  intros Hnin. unfold addUser.
  destruct (existsb (String.eqb u) us) eqn:E; [|reflexivity].
  now apply existsb_eqb_In in E.
Qed.

Lemma addUser_known u us : In u us -> addUser u us = us.
Proof.
  intros Hin. unfold addUser.
  apply existsb_eqb_In in Hin. now rewrite Hin.
Qed.

Lemma addUser_NoDup u us : NoDup us -> NoDup (addUser u us).
Proof.
  intros Hnd. unfold addUser.
  destruct (existsb (String.eqb u) us) eqn:E; [assumption|].
  apply NoDup_app. split; [assumption|]. split; [|apply NoDup_singleton].
  intros x Hx Hxu. apply list_elem_of_In in Hx.
  apply list_elem_of_singleton in Hxu. subst x.
  apply existsb_eqb_In in Hx. congruence.
Qed.

(** With the store down the call answers "not suspicious" and writes
    nothing. *)
Lemma trackIPAddress_down ipAddress userId w :
  redisUp w = false ->
  trackIPAddress ipAddress userId w
  = (Returned (IpCheck.mk false None), addLog (error, "Error tracking IP:") w).
Proof.
  intros Hdown. unfold trackIPAddress, tryCatch, bind, redis_get, logger, ret.
  now rewrite Hdown.
Qed.

(** With the store up and a live activity record, or no live entry, under
    the key, the call updates the users and the count and answers on the
    update. *)
Lemma trackIPAddress_up ipAddress userId w users count :
  redisUp w = true ->
  (ipRecord ipAddress w = Some (users, count)
   \/ (liveValue (ipKey ipAddress) w = None /\ users = [] /\ count = 0)) ->
  trackIPAddress ipAddress userId w
  = (Returned (ipVerdict (addUser userId users) (count + 1)),
     tracked ipAddress (addUser userId users) (count + 1) w).
Proof.
  intros Hup Hrec.
  unfold trackIPAddress, tryCatch, bind, redis_get, redis_setex, Date_now,
    throw, ret, ipRecord in *.
  rewrite Hup.
  destruct Hrec as [Hrec | (Hnone & -> & ->)].
  - destruct (liveValue (ipKey ipAddress) w) as [[a b c|us c ls]|];
      try discriminate.
    injection Hrec as -> ->. cbn [redisUp]. rewrite Hup.
    unfold ipVerdict, tracked, addUser.
    destruct (5 <? _); [reflexivity|]. destruct (100 <? _); reflexivity.
  - rewrite Hnone. cbn [redisUp]. rewrite Hup.
    unfold ipVerdict, tracked, addUser.
    destruct (5 <? _); [reflexivity|]. destruct (100 <? _); reflexivity.
Qed.

(** A document that is no activity record makes the call fail inside its
    [try]: it answers "not suspicious" and writes nothing. *)
Lemma trackIPAddress_other_doc ipAddress userId w a b c :
  redisUp w = true ->
  liveValue (ipKey ipAddress) w = Some (FlagDoc a b c) ->
  trackIPAddress ipAddress userId w
  = (Returned (IpCheck.mk false None), addLog (error, "Error tracking IP:") w).
Proof.
  intros Hup Hdoc.
  unfold trackIPAddress, tryCatch, bind, redis_get, throw, logger, ret.
  now rewrite Hup, Hdoc.
Qed.

Lemma tracked_ipRecord_now ipAddress users count w :
  ipRecord ipAddress (tracked ipAddress users count w) = Some (users, count).
Proof.
  unfold ipRecord, liveValue, tracked.
  cbn [redisStore clock setRedisStore].
  rewrite lookup_insert_eq. unfold ONE_DAY.
  destruct (Z.ltb_spec (clock w) (clock w + 86400 * 1000)); [reflexivity|lia].
Qed.

(** A series of first-time users within the window. *)
Lemma trackCalls_new_users ipAddress calls :
  forall w users count start,
    redisUp w = true ->
    start <= clock w ->
    redisStore w !! ipKey ipAddress
      = Some (IpDoc users count (clock w), clock w + ONE_DAY * 1000) ->
    NoDup (users ++ map snd calls) ->
    inWindow start (clock w) calls ->
    fst (trackCalls ipAddress calls w) = verdicts users count (map snd calls).
Proof.
  induction calls as [|[t u] rest IH];
    intros w users count start Hup Hstart Hlook Hnd Hwin; [reflexivity|].
  destruct Hwin as (Hprev & Hend & Hrest).
  cbn [trackCalls map snd verdicts].
  assert (Hnew : ~ In u users).
  { intros Hin. apply NoDup_app in Hnd as (_ & Hdisj & _).
    apply (Hdisj u); [now apply list_elem_of_In|]. simpl. left. }
  assert (Hlive : ipRecord ipAddress (atTime t w) = Some (users, count)).
  { unfold ipRecord, liveValue. cbn [redisStore clock atTime]. rewrite Hlook.
    destruct (Z.ltb_spec t (clock w + ONE_DAY * 1000)); [reflexivity|lia]. }
  rewrite (trackIPAddress_up ipAddress u (atTime t w) users count Hup
             (or_introl Hlive)).
  rewrite (addUser_new u users Hnew).
  specialize (IH (tracked ipAddress (users ++ [u]) (count + 1) (atTime t w))
                 (users ++ [u])%list (count + 1) start).
  destruct (trackCalls ipAddress rest _) as [os w2].
  cbn [fst] in *. f_equal. apply IH.
  - exact Hup.
  - cbn [clock tracked setRedisStore atTime]. lia.
  - unfold tracked. cbn [redisStore clock setRedisStore atTime].
    now rewrite lookup_insert_eq.
  - rewrite <- app_assoc. exact Hnd.
  - exact Hrest.
Qed.

Lemma ipRecord_addLog ipAddress e w :
  ipRecord ipAddress (addLog e w) = ipRecord ipAddress w.
Proof. reflexivity. Qed.

(** What one call leaves on file, by cases on what it found. *)
Lemma trackIPAddress_ipRecord ipAddress userId w :
  let w' := snd (trackIPAddress ipAddress userId w) in
  match ipRecord ipAddress w with
  | Some (users, count) =>
      ipRecord ipAddress w'
      = if redisUp w then Some (addUser userId users, count + 1)
        else Some (users, count)
  | None =>
      ipRecord ipAddress w' = None
      \/ ipRecord ipAddress w' = Some ([userId], 1)
  end.
Proof.
  cbv zeta. destruct (redisUp w) eqn:Hup.
  - destruct (ipRecord ipAddress w) as [[users count]|] eqn:Hrec.
    + rewrite (trackIPAddress_up ipAddress userId w users count Hup
                 (or_introl Hrec)).
      apply tracked_ipRecord_now.
    + destruct (liveValue (ipKey ipAddress) w) as [[a b c|us c ls]|] eqn:Hlive.
      * rewrite (trackIPAddress_other_doc ipAddress userId w a b c Hup Hlive).
        left. cbn [snd]. now rewrite ipRecord_addLog.
      * unfold ipRecord in Hrec. rewrite Hlive in Hrec. discriminate.
      * rewrite (trackIPAddress_up ipAddress userId w [] 0 Hup
                   (or_intror (conj Hlive (conj eq_refl eq_refl)))).
        right. apply tracked_ipRecord_now.
  - rewrite (trackIPAddress_down ipAddress userId w Hup). cbn [snd].
    rewrite ipRecord_addLog.
    destruct (ipRecord ipAddress w) as [[users count]|]; [reflexivity|].
    now left.
Qed.

(** C9. From an address with no record on file, one call per distinct user
    within 24 hours answers "not suspicious" for the first five users and
    "suspicious", for multiple users from the same IP, for the sixth. The
    users on file stay free of duplicates, a user already on file does not
    grow them, and within the window the count on file never decreases. *)
Theorem trackIPAddress_six_users_C9 (ipAddress : string) :
  (forall calls w,
     redisUp w = true ->
     redisStore w !! ipKey ipAddress = None ->
     length calls = 6%nat ->
     NoDup (map snd calls) ->
     withinOneDay calls ->
     fst (trackCalls ipAddress calls w)
     = [Returned (IpCheck.mk false None); Returned (IpCheck.mk false None);
        Returned (IpCheck.mk false None); Returned (IpCheck.mk false None);
        Returned (IpCheck.mk false None);
        Returned (IpCheck.mk true (Some "Multiple users (6) from same IP"))])
  /\ (forall userId w,
        (forall users count,
           ipRecord ipAddress w = Some (users, count) -> NoDup users) ->
        forall users' count',
          ipRecord ipAddress (snd (trackIPAddress ipAddress userId w))
            = Some (users', count') ->
          NoDup users')
  /\ (forall userId w users count,
        ipRecord ipAddress w = Some (users, count) ->
        In userId users ->
        exists count',
          ipRecord ipAddress (snd (trackIPAddress ipAddress userId w))
            = Some (users, count'))
  /\ (forall userId w users count,
        ipRecord ipAddress w = Some (users, count) ->
        exists users' count',
          ipRecord ipAddress (snd (trackIPAddress ipAddress userId w))
            = Some (users', count')
          /\ count <= count'
          /\ (redisUp w = true -> count' = count + 1)).
Proof.
  split; [|split; [|split]].
  - intros calls w Hup Hnone Hlen Hnd Hwin.
    destruct calls as [|[t1 u1] rest]; [discriminate|].
    cbn [withinOneDay inWindow] in Hwin. destruct Hwin as (_ & _ & Hrest).
    cbn [trackCalls].
    assert (Hfresh : liveValue (ipKey ipAddress) (atTime t1 w) = None).
    { unfold liveValue. cbn [redisStore atTime]. now rewrite Hnone. }
    rewrite (trackIPAddress_up ipAddress u1 (atTime t1 w) [] 0 Hup
               (or_intror (conj Hfresh (conj eq_refl eq_refl)))).
    pose proof (trackCalls_new_users ipAddress rest
                  (tracked ipAddress (addUser u1 []) (0 + 1) (atTime t1 w))
                  [u1] 1 t1 Hup) as Hnext.
    destruct (trackCalls ipAddress rest _) as [os w2]. cbn [fst] in *.
    rewrite Hnext.
    + destruct rest as [|[t2 u2] [|[t3 u3] [|[t4 u4] [|[t5 u5] [|[t6 u6]
        [|? ?]]]]]]; try discriminate Hlen.
      vm_compute. reflexivity.
    + cbn [clock tracked setRedisStore atTime]. lia.
    + unfold tracked. cbn [redisStore clock setRedisStore atTime].
      now rewrite lookup_insert_eq.
    + exact Hnd.
    + exact Hrest.
  - intros userId w Hset users' count' Hafter.
    pose proof (trackIPAddress_ipRecord ipAddress userId w) as Hstep.
    cbv zeta in Hstep.
    destruct (ipRecord ipAddress w) as [[users count]|] eqn:Hrec.
    + specialize (Hset users count eq_refl).
      rewrite Hstep in Hafter. destruct (redisUp w).
      * injection Hafter as <- _. now apply addUser_NoDup.
      * now injection Hafter as <- _.
    + destruct Hstep as [Hstep|Hstep]; rewrite Hstep in Hafter;
        [discriminate|].
      injection Hafter as <- _. apply NoDup_singleton.
  - intros userId w users count Hrec Hin.
    pose proof (trackIPAddress_ipRecord ipAddress userId w) as Hstep.
    cbv zeta in Hstep. rewrite Hrec in Hstep. rewrite Hstep.
    destruct (redisUp w); [|eauto].
    rewrite (addUser_known userId users Hin). eauto.
  - intros userId w users count Hrec.
    pose proof (trackIPAddress_ipRecord ipAddress userId w) as Hstep.
    cbv zeta in Hstep. rewrite Hrec in Hstep. rewrite Hstep.
    destruct (redisUp w); do 2 eexists; (split; [reflexivity|]);
      (split; [lia|]); [reflexivity|discriminate].
Qed.

Lemma trackIPAddress_six_users_C9_witness :
  fst (trackCalls "203.0.113.7" sixCalls emptyWorld)
  = [Returned (IpCheck.mk false None); Returned (IpCheck.mk false None);
     Returned (IpCheck.mk false None); Returned (IpCheck.mk false None);
     Returned (IpCheck.mk false None);
     Returned (IpCheck.mk true (Some "Multiple users (6) from same IP"))].
Proof.
  destruct (trackIPAddress_six_users_C9 "203.0.113.7") as [H _].
  apply H.
  - reflexivity.
  - reflexivity.
  - reflexivity.
  - apply (bool_decide_unpack _). vm_compute. exact I.
  - unfold sixCalls. cbn [withinOneDay inWindow]. unfold T0, ONE_DAY. lia.
Defined.

(** * Further properties of the service *)

(** ** Keys of the store *)

Lemma flagKey_inj a b : flagKey a = flagKey b -> a = b.
Proof. unfold flagKey. cbn. intros H. now injection H. Qed.

Lemma flagKey_prefix userId : String.prefix FLAG_PREFIX (flagKey userId) = true.
Proof. unfold FLAG_PREFIX, flagKey. cbn. now destruct userId. Qed.

Lemma ipKey_not_flag ipAddress : String.prefix FLAG_PREFIX (ipKey ipAddress) = false.
Proof. reflexivity. Qed.

Lemma ipKey_flagKey ipAddress userId : ipKey ipAddress <> flagKey userId.
Proof. unfold ipKey, flagKey. cbn. discriminate. Qed.

Lemma prefix_split p : forall k,
  String.prefix p k = true -> exists rest, k = p +:+ rest.
Proof.
  induction p as [|c p IH]; intros k Hk.
  - exists k. reflexivity.
  - destruct k as [|c' k]; [discriminate|]. cbn in Hk.
    destruct (Ascii.ascii_dec c c') as [->|]; [|discriminate].
    destruct (IH k Hk) as [rest ->]. now exists rest.
Qed.

Lemma flag_prefix_key k :
  String.prefix FLAG_PREFIX k = true -> exists userId, k = flagKey userId.
Proof. intros Hk. apply prefix_split in Hk as [rest ->]. now exists rest. Qed.

(** ** Runs of the flag administration *)

Lemma isUserFlagged_run userId w :
  isUserFlagged userId w
  = if redisUp w then
      (Returned (match liveValue (flagKey userId) w with
                 | Some _ => true | None => false end), w)
    else (Returned false, addLog (error, "Error checking user flag:") w).
Proof.
  unfold isUserFlagged, tryCatch, bind, redis_get, logger, ret.
  now destruct (redisUp w).
Qed.

Lemma isUserFlagged_answer userId w :
  fst (isUserFlagged userId w)
  = Returned (if redisUp w then
                match liveValue (flagKey userId) w with
                | Some _ => true | None => false end
              else false).
Proof. rewrite isUserFlagged_run. now destruct (redisUp w). Qed.

Lemma clearUserFlag_run userId w :
  clearUserFlag userId w
  = (Returned tt,
     if redisUp w then
       addLog (info, "User flag cleared")
         (setRedisStore (delete (flagKey userId) (redisStore w)) w)
     else addLog (error, "Error clearing user flag:") w).
Proof.
  unfold clearUserFlag, tryCatch, bind, redis_del, logger.
  now destruct (redisUp w).
Qed.

(** ** The flag store *)

(** X1. Once [flagUserForReview] has written the flag, [isUserFlagged]
    answers [true] for exactly seven days: [ms] milliseconds later the answer
    is [true] when [ms] is below 7 * 86400 * 1000 and [false] from then on. *)
Theorem flag_visible_for_seven_days (userId reason : string) (w : World) (ms : Z) :
  redisUp w = true ->
  fst (isUserFlagged userId (later ms (snd (flagUserForReview userId reason w))))
  = Returned (ms <? SEVEN_DAYS_MS).
Proof.
  intros Hup. rewrite flagUserForReview_run, Hup. cbn [snd].
  rewrite isUserFlagged_run.
  unfold later, flagged, liveValue.
  cbn [redisUp redisStore clock atTime addLog setRedisStore]. rewrite Hup.
  rewrite lookup_insert_eq. cbn [fst]. f_equal.
  unfold SEVEN_DAYS, SEVEN_DAYS_MS.
  destruct (Z.ltb_spec (clock w + ms) (clock w + 86400 * 7 * 1000)),
           (Z.ltb_spec ms (7 * 86400 * 1000)); lia || reflexivity.
Qed.

Lemma flag_visible_for_seven_days_witness :
  fst (isUserFlagged "alice"
         (later 604799999 (snd (flagUserForReview "alice" "why" emptyWorld))))
  = Returned true
  /\ fst (isUserFlagged "alice"
            (later 604800000 (snd (flagUserForReview "alice" "why" emptyWorld))))
     = Returned false.
Proof.
  split.
  - exact (flag_visible_for_seven_days "alice" "why" emptyWorld 604799999 eq_refl).
  - exact (flag_visible_for_seven_days "alice" "why" emptyWorld 604800000 eq_refl).
Defined.

(** X2. Flagging or clearing one user never changes what [isUserFlagged]
    answers for another user. *)
Theorem flag_and_clear_leave_other_users (userId other reason : string) (w : World) :
  userId <> other ->
  fst (isUserFlagged other (snd (flagUserForReview userId reason w)))
  = fst (isUserFlagged other w)
  /\ fst (isUserFlagged other (snd (clearUserFlag userId w)))
     = fst (isUserFlagged other w).
Proof.
  intros Hne.
  assert (Hkey : flagKey userId <> flagKey other)
    by (intros H; now apply flagKey_inj in H).
  rewrite flagUserForReview_run, clearUserFlag_run, !isUserFlagged_run.
  cbn [snd]. destruct (redisUp w) eqn:Hup.
  - unfold flagged, liveValue.
    cbn [redisUp redisStore clock addLog setRedisStore]. rewrite Hup.
    rewrite lookup_insert_ne, lookup_delete_ne by assumption. now split.
  - cbn [redisUp addLog]. rewrite Hup. now split.
Qed.

Lemma flag_and_clear_leave_other_users_witness :
  fst (isUserFlagged "alice" (snd (clearUserFlag "bob" replayWorld)))
  = fst (isUserFlagged "alice" replayWorld).
Proof.
  apply (flag_and_clear_leave_other_users "bob" "alice" "" replayWorld).
  discriminate.
Defined.

(** X3. With the store reachable, after [clearUserFlag] the user is no
    longer reported as flagged, at any instant; clearing a second time, or
    clearing a user who has no flag, leaves the store as it is. *)
Theorem clearUserFlag_clears (userId : string) (w : World) :
  redisUp w = true ->
  (forall ms,
     fst (isUserFlagged userId (later ms (snd (clearUserFlag userId w))))
     = Returned false)
  /\ redisStore (snd (clearUserFlag userId (snd (clearUserFlag userId w))))
     = redisStore (snd (clearUserFlag userId w))
  /\ (redisStore w !! flagKey userId = None ->
      redisStore (snd (clearUserFlag userId w)) = redisStore w).
Proof.
  intros Hup. rewrite !clearUserFlag_run, Hup. cbn [snd redisUp addLog setRedisStore].
  rewrite Hup. cbn [redisStore]. split; [|split].
  - intros ms. rewrite isUserFlagged_run. unfold later, liveValue.
    cbn [redisUp redisStore clock atTime addLog setRedisStore]. rewrite Hup.
    now rewrite lookup_delete_eq.
  - apply delete_delete_eq.
  - apply delete_id.
Qed.

Lemma clearUserFlag_clears_witness :
  fst (isUserFlagged "alice" replayWorld) = Returned true
  /\ fst (isUserFlagged "alice"
            (later 0 (snd (clearUserFlag "alice" replayWorld))))
     = Returned false.
Proof.
  split; [vm_compute; reflexivity|].
  destruct (clearUserFlag_clears "alice" replayWorld eq_refl) as [H _].
  apply H.
Defined.

(** X4. Flagging a user who is already flagged overwrites the flag: the
    store is the one a single, latest call would have left, it holds the
    latest reason with an expiry seven days after the latest call, and it has
    no more entries than before. *)
Theorem flagUserForReview_overwrites (userId r1 r2 : string) (w : World) (ms : Z) :
  redisUp w = true ->
  let w1 := later ms (snd (flagUserForReview userId r1 w)) in
  let w2 := snd (flagUserForReview userId r2 w1) in
  redisStore w2 = redisStore (snd (flagUserForReview userId r2 (later ms w)))
  /\ redisStore w2 !! flagKey userId
     = Some (FlagDoc userId r2 (clock w + ms), clock w + ms + SEVEN_DAYS_MS)
  /\ size (redisStore w2) = size (redisStore w1).
Proof.
  intros Hup. cbv zeta. rewrite !flagUserForReview_run.
  unfold later. cbn [redisUp atTime snd]. rewrite Hup.
  cbn [redisUp atTime snd flagged addLog setRedisStore]. rewrite Hup.
  unfold flagged. cbn [redisStore clock atTime addLog setRedisStore].
  split; [apply insert_insert_eq|]. split.
  - rewrite lookup_insert_eq. reflexivity.
  - apply map_size_insert_Some. rewrite lookup_insert_eq. eauto.
Qed.

Lemma flagUserForReview_overwrites_witness :
  redisStore (snd (flagUserForReview "alice" "second"
                     (later 5000 (snd (flagUserForReview "alice" "first" emptyWorld)))))
    !! flagKey "alice"
  = Some (FlagDoc "alice" "second" (T0 + 5000), T0 + 5000 + SEVEN_DAYS_MS).
Proof.
  destruct (flagUserForReview_overwrites "alice" "first" "second" emptyWorld
              5000 eq_refl) as (_ & H & _).
  exact H.
Defined.

(** ** Listing the flags *)

Lemma collectFlagged_run keys : forall acc w,
  redisUp w = true ->
  collectFlagged keys acc w
  = (Returned (acc ++ omap (fun key => liveValue key w) keys)%list, w).
Proof.
  induction keys as [|key rest IH]; intros acc w Hup; cbn [collectFlagged].
  - unfold ret. cbn. now rewrite app_nil_r.
  - unfold bind at 1. unfold redis_get. rewrite Hup.
    rewrite IH by assumption. cbn [omap list_omap].
    destruct (liveValue key w); [now rewrite <- app_assoc|reflexivity].
Qed.

Lemma getFlaggedUsers_run w :
  getFlaggedUsers w
  = if redisUp w then
      (Returned (omap (fun key => liveValue key w) (liveKeys FLAG_PREFIX w)), w)
    else (Returned [], addLog (error, "Error getting flagged users:") w).
Proof.
  unfold getFlaggedUsers, tryCatch, bind, redis_keys, logger, ret.
  destruct (redisUp w) eqn:Hup; [|reflexivity].
  now rewrite collectFlagged_run.
Qed.

Lemma liveKeys_spec prefix w key :
  In key (liveKeys prefix w)
  <-> String.prefix prefix key = true /\ is_Some (liveValue key w).
Proof.
  unfold liveKeys, liveValue. rewrite in_map_iff. split.
  - intros ([k [v e]] & <- & Hin). apply filter_In in Hin as [Hin Hok].
    apply list_elem_of_In, elem_of_map_to_list in Hin.
    cbn [fst snd] in *. apply andb_true_iff in Hok as [Hp Hlive].
    rewrite Hin, Hlive. split; [assumption|eauto].
  - intros [Hp Hlive].
    destruct (redisStore w !! key) as [[v e]|] eqn:Hlook;
      [|now destruct Hlive].
    destruct (clock w <? e) eqn:He; [|now destruct Hlive].
    exists (key, (v, e)). split; [reflexivity|].
    apply filter_In. split.
    + now apply list_elem_of_In, elem_of_map_to_list.
    + cbn [fst snd]. now rewrite Hp, He.
Qed.

(** X5. The flag administration never throws. With the store unreachable,
    [flagUserForReview] and [clearUserFlag] leave the store as it is and
    [getFlaggedUsers] answers the empty list, each after logging the error. *)
Theorem flag_administration_never_throws (userId reason : string) (w : World) :
  (exists w', flagUserForReview userId reason w = (Returned tt, w'))
  /\ (exists w', clearUserFlag userId w = (Returned tt, w'))
  /\ (exists l w', getFlaggedUsers w = (Returned l, w'))
  /\ (redisUp w = false ->
        flagUserForReview userId reason w
          = (Returned tt, addLog (error, "Error flagging user:") w)
        /\ clearUserFlag userId w
          = (Returned tt, addLog (error, "Error clearing user flag:") w)
        /\ getFlaggedUsers w
          = (Returned [], addLog (error, "Error getting flagged users:") w)).
Proof.
  rewrite flagUserForReview_run, clearUserFlag_run, getFlaggedUsers_run.
  destruct (redisUp w); repeat split; eauto; discriminate.
Qed.

Lemma flag_administration_never_throws_witness :
  getFlaggedUsers flaggedStoreDownWorld
  = (Returned [], addLog (error, "Error getting flagged users:")
                    flaggedStoreDownWorld).
Proof.
  destruct (flag_administration_never_throws "alice" "" flaggedStoreDownWorld)
    as (_ & _ & _ & H).
  destruct (H eq_refl) as (_ & _ & Hlist). exact Hlist.
Defined.

(** The documents [getFlaggedUsers] lists on a reachable store. *)
Lemma getFlaggedUsers_members w :
  redisUp w = true ->
  exists l,
    getFlaggedUsers w = (Returned l, w)
    /\ forall doc,
         In doc l <->
         exists key, String.prefix FLAG_PREFIX key = true
                     /\ liveValue key w = Some doc.
Proof.
  intros Hup. rewrite getFlaggedUsers_run, Hup. eexists. split; [reflexivity|].
  intros doc. rewrite <- list_elem_of_In, list_elem_of_omap. split.
  - intros (key & Hkey & Hdoc). exists key. split; [|assumption].
    apply list_elem_of_In, liveKeys_spec in Hkey. tauto.
  - intros (key & Hp & Hdoc). exists key. split; [|assumption].
    apply list_elem_of_In, liveKeys_spec. split; [assumption|].
    rewrite Hdoc. eauto.
Qed.

Lemma omap_length_all {A B} (f : A -> option B) (l : list A) :
  (forall x, In x l -> is_Some (f x)) -> length (omap f l) = length l.
Proof.
  induction l as [|x l IH]; intros Hall; [reflexivity|].
  cbn [omap list_omap]. destruct (Hall x (or_introl eq_refl)) as [y ->].
  cbn [length]. f_equal. apply IH. intros z Hz. apply Hall. now right.
Qed.

Lemma liveKeys_NoDup prefix w : NoDup (liveKeys prefix w).
Proof.
  unfold liveKeys.
  pose proof (NoDup_fst_map_to_list (redisStore w)) as Hnd.
  induction (map_to_list (redisStore w)) as [|kv l IH]; [constructor|].
  apply NoDup_cons in Hnd as [Hnotin Hnd]. cbn [List.filter].
  destruct (_ && _); [|now apply IH].
  cbn [map]. apply NoDup_cons. split; [|now apply IH].
  intros Hin. apply Hnotin. apply list_elem_of_In in Hin.
  apply in_map_iff in Hin as (kv' & Heq & Hin).
  apply filter_In in Hin as [Hin _].
  apply list_elem_of_In, in_map_iff. exists kv'. now split.
Qed.

(** X6. With the store reachable, [getFlaggedUsers] changes nothing and lists
    exactly the documents kept under the keys "fraud:flagged:*" that have not
    expired, one per key. *)
Theorem getFlaggedUsers_lists_live_flags (w : World) :
  redisUp w = true ->
  exists l,
    getFlaggedUsers w = (Returned l, w)
    /\ (forall doc,
          In doc l <->
          exists key, String.prefix FLAG_PREFIX key = true
                      /\ liveValue key w = Some doc)
    /\ length l = length (liveKeys FLAG_PREFIX w)
    /\ NoDup (liveKeys FLAG_PREFIX w).
Proof.
  intros Hup. destruct (getFlaggedUsers_members w Hup) as (l & Hrun & Hin).
  exists l. split; [exact Hrun|]. split; [exact Hin|].
  rewrite getFlaggedUsers_run, Hup in Hrun. injection Hrun as <-.
  split; [|apply liveKeys_NoDup].
  apply omap_length_all. intros key Hkey. now apply liveKeys_spec in Hkey.
Qed.

Lemma getFlaggedUsers_lists_live_flags_witness :
  exists l,
    getFlaggedUsers replayWorld = (Returned l, replayWorld)
    /\ length l = 1%nat.
Proof.
  destruct (getFlaggedUsers_lists_live_flags replayWorld eq_refl)
    as (l & Hrun & _ & Hlen & _).
  exists l. split; [exact Hrun|]. rewrite Hlen. vm_compute. reflexivity.
Defined.

(** ** What each method leaves in the world *)

Lemma trackIPAddress_after ipAddress userId w :
  snd (trackIPAddress ipAddress userId w) = addLog (error, "Error tracking IP:") w
  \/ exists users count,
       snd (trackIPAddress ipAddress userId w) = tracked ipAddress users count w.
Proof.
  destruct (redisUp w) eqn:Hup.
  - destruct (liveValue (ipKey ipAddress) w) as [[a b c|us c ls]|] eqn:Hlive.
    + left. now rewrite (trackIPAddress_other_doc _ _ _ _ _ _ Hup Hlive).
    + right. exists (addUser userId us), (c + 1).
      rewrite (trackIPAddress_up ipAddress userId w us c Hup); [reflexivity|].
      left. unfold ipRecord. now rewrite Hlive.
    + right. exists (addUser userId []), (0 + 1).
      rewrite (trackIPAddress_up ipAddress userId w [] 0 Hup); [reflexivity|].
      right. now split.
  - left. now rewrite trackIPAddress_down.
Qed.

Lemma checkForFraud_after userId externalTransactionId amount providerId w :
  let w' := snd (checkForFraud userId externalTransactionId amount providerId w) in
  let logged := addLog (info, "Fraud check completed") w in
  w' = w \/ w' = logged
  \/ exists reason, w' = snd (flagUserForReview userId reason logged).
Proof.
  cbv zeta. destruct (mongoUp w) eqn:Hup.
  - destruct (checkDuplicate_run externalTransactionId userId amount providerId
                w Hup) as [dup Hdup].
    pose proof (checkRateLimit_run userId w Hup) as Hrate.
    destruct (checkCompletionCooldown_run userId w Hup) as [cool Hcool].
    rewrite (checkForFraud_run _ _ _ _ _ _ _ _ Hup Hdup Hrate Hcool).
    cbn [snd]. destruct (Action_eqb _ block); eauto.
  - rewrite checkForFraud_mongo_down by assumption. now left.
Qed.

Lemma flagStoreWf_clear userId w :
  flagStoreWf w -> flagStoreWf (snd (clearUserFlag userId w)).
Proof.
  intros Hwf. rewrite clearUserFlag_run. cbn [snd].
  destruct (redisUp w); [|exact Hwf].
  intros key doc e Hlook Hp. cbn [redisStore addLog setRedisStore] in Hlook.
  apply lookup_delete_Some in Hlook as [_ Hlook]. eapply Hwf; eassumption.
Qed.

(** X7. The invariant of the flag keys: if every entry under a key
    "fraud:flagged:*" is the flag document of the user named in the key, this
    is still so after [flagUserForReview], [clearUserFlag], [trackIPAddress]
    and [checkForFraud], and as time passes. *)
Theorem flagStoreWf_preserved (w : World) :
  flagStoreWf w ->
  (forall userId reason, flagStoreWf (snd (flagUserForReview userId reason w)))
  /\ (forall userId, flagStoreWf (snd (clearUserFlag userId w)))
  /\ (forall ipAddress userId,
        flagStoreWf (snd (trackIPAddress ipAddress userId w)))
  /\ (forall userId externalTransactionId amount providerId,
        flagStoreWf
          (snd (checkForFraud userId externalTransactionId amount providerId w)))
  /\ (forall t, flagStoreWf (atTime t w)).
Proof.
  intros Hwf.
  assert (Hflag : forall v userId reason,
            flagStoreWf v -> flagStoreWf (snd (flagUserForReview userId reason v))).
  { intros v userId reason Hv. rewrite flagUserForReview_run. cbn [snd].
    destruct (redisUp v); [|exact Hv].
    intros key doc e Hlook Hp. unfold flagged in Hlook.
    cbn [redisStore addLog setRedisStore] in Hlook.
    destruct (decide (flagKey userId = key)) as [<-|Hne].
    - rewrite lookup_insert_eq in Hlook. injection Hlook as <- _. eauto.
    - rewrite lookup_insert_ne in Hlook by assumption. eapply Hv; eassumption. }
  split; [intros; now apply Hflag|]. split; [|split; [|split]].
  - intros userId. now apply flagStoreWf_clear.
  - intros ipAddress userId.
    destruct (trackIPAddress_after ipAddress userId w) as [->|(us & c & ->)];
      [exact Hwf|].
    intros key doc e Hlook Hp. unfold tracked in Hlook.
    cbn [redisStore setRedisStore] in Hlook.
    destruct (decide (ipKey ipAddress = key)) as [<-|Hne].
    + now rewrite ipKey_not_flag in Hp.
    + rewrite lookup_insert_ne in Hlook by assumption. eapply Hwf; eassumption.
  - intros userId externalTransactionId amount providerId.
    destruct (checkForFraud_after userId externalTransactionId amount
                providerId w) as [->|[->|[reason ->]]];
      [exact Hwf | exact Hwf | now apply Hflag].
  - intros t. exact Hwf.
Qed.

Lemma flagStoreWf_empty w : redisStore w = ∅ -> flagStoreWf w.
Proof.
  intros Hempty key doc e Hlook. rewrite Hempty in Hlook. discriminate.
Qed.

Lemma flagStoreWf_preserved_witness :
  flagStoreWf (snd (checkForFraud "alice" "ext-0" 500 "provider-1" tenSecondsWorld)).
Proof.
  destruct (flagStoreWf_preserved tenSecondsWorld) as (_ & _ & _ & H & _).
  - apply flagStoreWf_empty. reflexivity.
  - apply H.
Defined.

(** X8. With the store reachable, a user who has just been flagged is in the
    list of [getFlaggedUsers] with the reason given; and, the flag keys being
    well formed, a user whose flag has just been cleared is not in it. *)
Theorem getFlaggedUsers_after_flag_and_clear (userId reason : string) (w : World) :
  redisUp w = true ->
  (exists l,
     fst (getFlaggedUsers (snd (flagUserForReview userId reason w))) = Returned l
     /\ In (FlagDoc userId reason (clock w)) l)
  /\ (flagStoreWf w ->
      exists l,
        fst (getFlaggedUsers (snd (clearUserFlag userId w))) = Returned l
        /\ forall reason' flaggedAt, ~ In (FlagDoc userId reason' flaggedAt) l).
Proof.
  intros Hup. split.
  - assert (Hup' : redisUp (snd (flagUserForReview userId reason w)) = true)
      by (rewrite flagUserForReview_run, Hup; exact Hup).
    destruct (getFlaggedUsers_members _ Hup') as (l & Hrun & Hin).
    exists l. rewrite Hrun. split; [reflexivity|].
    apply Hin. exists (flagKey userId). split; [apply flagKey_prefix|].
    rewrite flagUserForReview_run, Hup. cbn [snd].
    unfold liveValue. rewrite flagged_lookup.
    unfold flagged. cbn [clock addLog setRedisStore].
    destruct (Z.ltb_spec (clock w) (clock w + 7 * 86400 * 1000));
      [reflexivity|lia].
  - intros Hwf.
    assert (Hup' : redisUp (snd (clearUserFlag userId w)) = true)
      by (rewrite clearUserFlag_run, Hup; exact Hup).
    destruct (getFlaggedUsers_members _ Hup') as (l & Hrun & Hin).
    exists l. rewrite Hrun. split; [reflexivity|].
    intros reason' flaggedAt Hdoc. apply Hin in Hdoc as (key & Hp & Hlive).
    pose proof (flagStoreWf_clear userId w Hwf) as Hclear.
    unfold liveValue in Hlive.
    destruct (redisStore (snd (clearUserFlag userId w)) !! key)
      as [[doc e]|] eqn:Hlook; [|discriminate].
    destruct (clock _ <? e); [|discriminate]. injection Hlive as ->.
    destruct (Hclear key _ e Hlook Hp) as (u & r & t & -> & Hequ).
    injection Hequ as <- _ _.
    rewrite clearUserFlag_run, Hup in Hlook.
    cbn [snd redisStore addLog setRedisStore] in Hlook.
    now rewrite lookup_delete_eq in Hlook.
Qed.

Lemma getFlaggedUsers_after_flag_and_clear_witness :
  exists l,
    fst (getFlaggedUsers (snd (flagUserForReview "alice" "why" emptyWorld)))
      = Returned l
    /\ In (FlagDoc "alice" "why" T0) l.
Proof.
  destruct (getFlaggedUsers_after_flag_and_clear "alice" "why" emptyWorld eq_refl)
    as [H _].
  exact H.
Defined.

(** X9. The IP tracker and the flag store do not disturb each other:
    [trackIPAddress] never changes what [isUserFlagged] answers, and neither
    [flagUserForReview] nor [clearUserFlag] changes the activity record of an
    address. *)
Theorem ip_tracking_and_flags_are_separate (ipAddress userId other reason : string)
    (w : World) :
  fst (isUserFlagged other (snd (trackIPAddress ipAddress userId w)))
  = fst (isUserFlagged other w)
  /\ ipRecord ipAddress (snd (flagUserForReview other reason w))
     = ipRecord ipAddress w
  /\ ipRecord ipAddress (snd (clearUserFlag other w)) = ipRecord ipAddress w.
Proof.
  split; [|split].
  - rewrite !isUserFlagged_answer.
    destruct (trackIPAddress_after ipAddress userId w) as [->|(us & c & ->)];
      [reflexivity|].
    unfold tracked, liveValue. cbn [redisUp redisStore clock setRedisStore].
    rewrite lookup_insert_ne by apply ipKey_flagKey. reflexivity.
  - rewrite flagUserForReview_run. cbn [snd].
    destruct (redisUp w); [|reflexivity].
    unfold ipRecord, liveValue, flagged.
    cbn [redisStore clock addLog setRedisStore].
    rewrite lookup_insert_ne; [reflexivity|].
    intros H. symmetry in H. now apply ipKey_flagKey in H.
  - rewrite clearUserFlag_run. cbn [snd].
    destruct (redisUp w); [|reflexivity].
    unfold ipRecord, liveValue.
    cbn [redisStore clock addLog setRedisStore].
    rewrite lookup_delete_ne; [reflexivity|].
    intros H. symmetry in H. now apply ipKey_flagKey in H.
Qed.

(** ** The orchestrator, further *)

(** Everything a returned decision tells about the run. *)
Lemma checkForFraud_decision userId externalTransactionId amount providerId
    w d w' :
  checkForFraud userId externalTransactionId amount providerId w
    = (Returned d, w') ->
  exists dup rate cool,
    mongoUp w = true
    /\ checkDuplicate externalTransactionId userId amount providerId w
       = (Returned dup, w)
    /\ checkRateLimit userId w = (Returned rate, w)
    /\ checkCompletionCooldown userId w = (Returned cool, w)
    /\ riskScore d
       = Z.max ((if Dup.isDuplicate dup then 100 else 0)
                + (if Limit.allowed rate then 0 else 50)
                + (if Limit.allowed cool then 0 else 30))
               (riskScoreFrom
                  (analyzeTransactions userId (clock w)
                     (recentTransactions userId w))
                  (accounts w !! userId) (clock w))
    /\ action d
       = (if 70 <=? riskScore d then block
          else if 40 <=? riskScore d then flag else allow)
    /\ isFraudulent d = Action_eqb (action d) block
    /\ w' = (if Action_eqb (action d) block
             then snd (flagUserForReview userId (String.concat ", " (reasons d))
                         (addLog (info, "Fraud check completed") w))
             else addLog (info, "Fraud check completed") w).
Proof.
  intros Hrun.
  destruct (mongoUp w) eqn:Hup;
    [|rewrite checkForFraud_mongo_down in Hrun by assumption; discriminate].
  destruct (checkDuplicate_run externalTransactionId userId amount providerId
              w Hup) as [dup Hdup].
  pose proof (checkRateLimit_run userId w Hup) as Hrate.
  destruct (checkCompletionCooldown_run userId w Hup) as [cool Hcool].
  rewrite (checkForFraud_run _ _ _ _ _ _ _ _ Hup Hdup Hrate Hcool) in Hrun.
  cbv zeta in Hrun. injection Hrun as <- <-.
  exists dup. eexists. exists cool.
  split; [reflexivity|]. split; [exact Hdup|]. split; [exact Hrate|].
  split; [exact Hcool|]. cbn [riskScore action isFraudulent reasons].
  repeat split.
Qed.

(** X10. The action of a returned decision is read off its score: [block]
    exactly from 70 on, [flag] exactly from 40 to 69, [allow] exactly below
    40; and [isFraudulent] holds exactly for [block]. *)
Theorem checkForFraud_action_thresholds
    (userId externalTransactionId : string) (amount : Z) (providerId : string)
    (w w' : World) (d : FraudCheckResult) :
  checkForFraud userId externalTransactionId amount providerId w
    = (Returned d, w') ->
  (action d = block <-> 70 <= riskScore d)
  /\ (action d = flag <-> 40 <= riskScore d < 70)
  /\ (action d = allow <-> riskScore d < 40)
  /\ (isFraudulent d = true <-> action d = block).
Proof.
  intros Hrun.
  apply checkForFraud_decision in Hrun
    as (dup & rate & cool & _ & _ & _ & _ & _ & Hact & Hfraud & _).
  rewrite Hfraud, Hact.
  destruct (Z.leb_spec 70 (riskScore d)); [|destruct (Z.leb_spec 40 (riskScore d))];
    cbn [Action_eqb]; repeat split; intros; try lia; try discriminate;
    try reflexivity.
Qed.

Lemma checkForFraud_action_thresholds_witness :
  action replayDecision = block <-> 70 <= riskScore replayDecision.
Proof.
  destruct (checkForFraud_action_thresholds "alice" "ext-0" 500 "provider-1"
              tenSecondsWorld replayWorld replayDecision) as [H _].
  - vm_compute. reflexivity.
  - exact H.
Defined.

(** The score of an activity with fewer than two records is 40: only the
    term for an average below 30 seconds fires, the average being 0. *)
Lemma filter_length_bound {A} (f : A -> bool) (l : list A) :
  (length (List.filter f l) <= length l)%nat.
Proof.
  induction l as [|x l IH]; cbn [List.filter length]; [lia|].
  destruct (f x); cbn [length]; lia.
Qed.

Lemma riskScoreFrom_thin_history userId now now' user l :
  (length l < 2)%nat ->
  riskScoreFrom (analyzeTransactions userId now l) user now' = 40.
Proof.
  intros Hlen.
  pose proof (gapLoop_pairs l 0 0) as Hpairs.
  pose proof (filter_length_bound
                (fun t => now - 60 * 60 * 1000 <=? Tx.createdAt t) l) as Hhour.
  unfold riskScoreFrom, newAccountRisk, activityRisk, analyzeTransactions.
  destruct (gapLoop l 0 0) as [total pairs]. cbn [snd] in Hpairs.
  cbn [Activity.completionsLastHour Activity.completionsLast24h
       Activity.avgCompletionTime Activity.uniqueProviders
       Activity.suspiciousPatterns].
  repeat match goal with
         | |- context [?a <? ?b] =>
             destruct (Z.ltb_spec a b); [exfalso; lia|]
         end.
  rewrite ?andb_false_r. cbn [app length].
  change (Qltb 0 (inject_Z 30)) with true. cbv iota.
  destruct user; rewrite ?andb_false_r; lia.
Qed.

(** X11. A user with fewer than two transactions in the last 24 hours is
    never allowed: [calculateRiskScore] is 40 for that user, so the decision
    of [checkForFraud] has a score of at least 40 and the action [flag] or
    [block]. *)
Theorem checkForFraud_thin_history_never_allowed
    (userId externalTransactionId : string) (amount : Z) (providerId : string)
    (w : World) :
  mongoUp w = true ->
  (length (recentTransactions userId w) < 2)%nat ->
  calculateRiskScore userId w = (Returned 40, w)
  /\ exists d w',
       checkForFraud userId externalTransactionId amount providerId w
         = (Returned d, w')
       /\ 40 <= riskScore d
       /\ action d <> allow.
Proof.
  intros Hup Hthin. split.
  - rewrite calculateRiskScore_run by assumption.
    now rewrite riskScoreFrom_thin_history.
  - destruct (checkDuplicate_run externalTransactionId userId amount providerId
                w Hup) as [dup Hdup].
    pose proof (checkRateLimit_run userId w Hup) as Hrate.
    destruct (checkCompletionCooldown_run userId w Hup) as [cool Hcool].
    pose proof (checkForFraud_run _ _ _ _ _ _ _ _ Hup Hdup Hrate Hcool) as Hrun.
    cbv zeta in Hrun. do 2 eexists. split; [exact Hrun|].
    cbn [riskScore action]. rewrite riskScoreFrom_thin_history by assumption.
    match goal with |- context [Z.max ?a 40] =>
      assert (Hscore : 40 <= Z.max a 40) by lia; revert Hscore;
      generalize (Z.max a 40) end.
    intros score Hscore. split; [exact Hscore|].
    destruct (Z.leb_spec 70 score); [discriminate|].
    destruct (Z.leb_spec 40 score); [discriminate|lia].
Qed.

Lemma checkForFraud_thin_history_never_allowed_witness :
  calculateRiskScore "carol" emptyWorld = (Returned 40, emptyWorld).
Proof.
  destruct (checkForFraud_thin_history_never_allowed
              "carol" "ext-9" 500 "provider-1" emptyWorld) as [H _].
  - reflexivity.
  - vm_compute. lia.
  - exact H.
Defined.

(** X12. [checkForFraud] reads the ledger and the accounts and never writes
    them; of the key-value store it can only change the entry under the
    user's own flag key, and it changes nothing at all there unless the
    decision is [block]. *)
Theorem checkForFraud_frame
    (userId externalTransactionId : string) (amount : Z) (providerId : string)
    (w : World) :
  let w' := snd (checkForFraud userId externalTransactionId amount providerId w) in
  ledger w' = ledger w /\ accounts w' = accounts w /\ clock w' = clock w
  /\ (forall key, key <> flagKey userId ->
        redisStore w' !! key = redisStore w !! key)
  /\ (forall d,
        fst (checkForFraud userId externalTransactionId amount providerId w)
          = Returned d ->
        action d <> block -> redisStore w' = redisStore w).
Proof.
  cbv zeta.
  assert (Hflag : forall reason v,
    let v' := snd (flagUserForReview userId reason v) in
    ledger v' = ledger v /\ accounts v' = accounts v /\ clock v' = clock v
    /\ forall key, key <> flagKey userId ->
         redisStore v' !! key = redisStore v !! key).
  { intros reason v. cbv zeta. rewrite flagUserForReview_run. cbn [snd].
    destruct (redisUp v); [|now repeat split].
    unfold flagged. cbn [ledger accounts clock redisStore addLog setRedisStore].
    repeat split. intros key Hkey. now rewrite lookup_insert_ne. }
  split; [|split; [|split; [|split]]].
  1-4: destruct (checkForFraud_after userId externalTransactionId amount
                   providerId w) as [->|[->|[reason ->]]];
       try reflexivity; try (intros; reflexivity);
       destruct (Hflag reason (addLog (info, "Fraud check completed") w))
         as (H1 & H2 & H3 & H4); try assumption.
  intros d Hd Hnb.
  destruct (checkForFraud userId externalTransactionId amount providerId w)
    as [o w'] eqn:Hrun.
  cbn [fst snd] in *. subst o.
  apply checkForFraud_decision in Hrun
    as (dup & rate & cool & _ & _ & _ & _ & _ & _ & _ & ->).
  destruct (action d); [reflexivity|reflexivity|now destruct Hnb].
Qed.

Lemma checkForFraud_frame_witness :
  redisStore (snd (checkForFraud "alice" "ext-1" 700 "provider-1" fortySecondsWorld))
  = redisStore fortySecondsWorld.
Proof.
  destruct (checkForFraud_frame "alice" "ext-1" 700 "provider-1" fortySecondsWorld)
    as (_ & _ & _ & _ & H).
  apply (H (mkFraudCheckResult false [] 40 flag)).
  - vm_compute. reflexivity.
  - discriminate.
Defined.

(** X13. How the signals combine in a returned decision: a positive
    duplicate check, by external id or by a similar transaction within a
    minute, gives [block]; a refusal of the rate limiter excludes [allow]; a
    refusal of both the rate limiter and the cooldown gives [block]; and the
    score is never below the one of [calculateRiskScore]. *)
Theorem checkForFraud_signals_compose
    (userId externalTransactionId : string) (amount : Z) (providerId : string)
    (w w' : World) (d : FraudCheckResult) :
  checkForFraud userId externalTransactionId amount providerId w
    = (Returned d, w') ->
  (forall dup,
     checkDuplicate externalTransactionId userId amount providerId w
       = (Returned dup, w) ->
     Dup.isDuplicate dup = true -> action d = block)
  /\ (forall rate,
        checkRateLimit userId w = (Returned rate, w) ->
        Limit.allowed rate = false -> action d <> allow)
  /\ (forall rate cool,
        checkRateLimit userId w = (Returned rate, w) ->
        checkCompletionCooldown userId w = (Returned cool, w) ->
        Limit.allowed rate = false -> Limit.allowed cool = false ->
        action d = block)
  /\ (forall s, calculateRiskScore userId w = (Returned s, w) ->
                s <= riskScore d).
Proof.
  intros Hrun.
  apply checkForFraud_decision in Hrun
    as (dup & rate & cool & Hup & Hdup & Hrate & Hcool & Hscore & Hact & _).
  split; [|split; [|split]].
  - intros dup' Hdup' Hd. rewrite Hdup in Hdup'. injection Hdup' as <-.
    rewrite Hd in Hscore. rewrite Hact.
    destruct (Limit.allowed rate), (Limit.allowed cool);
      destruct (Z.leb_spec 70 (riskScore d)); try reflexivity; lia.
  - intros rate' Hrate' Hr. rewrite Hrate in Hrate'. injection Hrate' as <-.
    rewrite Hr in Hscore. rewrite Hact.
    destruct (Dup.isDuplicate dup), (Limit.allowed cool);
      (destruct (Z.leb_spec 70 (riskScore d)); [discriminate|]);
      (destruct (Z.leb_spec 40 (riskScore d)); [discriminate|lia]).
  - intros rate' cool' Hrate' Hcool' Hr Hc.
    rewrite Hrate in Hrate'. injection Hrate' as <-.
    rewrite Hcool in Hcool'. injection Hcool' as <-.
    rewrite Hr, Hc in Hscore. rewrite Hact.
    destruct (Dup.isDuplicate dup);
      destruct (Z.leb_spec 70 (riskScore d)); try reflexivity; lia.
  - intros s Hs. rewrite calculateRiskScore_run in Hs by assumption.
    injection Hs as <-. rewrite Hscore. apply Z.le_max_r.
Qed.

Lemma checkForFraud_signals_compose_witness :
  exists d w',
    checkForFraud "alice" "ext-new" 700 "provider-2" busyHourWorld
      = (Returned d, w')
    /\ action d <> allow.
Proof.
  destruct (checkForFraud "alice" "ext-new" 700 "provider-2" busyHourWorld)
    as [[d|e] w'] eqn:Hrun.
  - exists d, w'. split; [reflexivity|].
    destruct (checkForFraud_signals_compose _ _ _ _ _ _ _ Hrun) as (_ & H & _).
    apply (H (Limit.mk false (Some "Rate limit exceeded: 100/20 per hour")
                (Some 3600))).
    + vm_compute. reflexivity.
    + reflexivity.
  - exfalso. vm_compute in Hrun. discriminate Hrun.
Defined.

(** X14. None of the ledger-reading methods catches a ledger error: with the
    ledger unreachable [checkDuplicate], [checkRateLimit],
    [checkCompletionCooldown], [analyzeUserActivity], [calculateRiskScore],
    [checkForFraud] and [generateFraudReport] all throw, and leave the store
    and the log as they were. *)
Theorem ledger_errors_propagate
    (userId externalTransactionId : string) (amount : Z) (providerId : string)
    (startDate endDate : option Z) (w : World) :
  mongoUp w = false ->
  (exists e, checkDuplicate externalTransactionId userId amount providerId w
             = (Thrown e, w))
  /\ (exists e, checkRateLimit userId w = (Thrown e, w))
  /\ (exists e, checkCompletionCooldown userId w = (Thrown e, w))
  /\ (exists e, analyzeUserActivity userId w = (Thrown e, w))
  /\ (exists e, calculateRiskScore userId w = (Thrown e, w))
  /\ (exists e, checkForFraud userId externalTransactionId amount providerId w
                = (Thrown e, w))
  /\ (exists e, generateFraudReport startDate endDate w = (Thrown e, w)).
Proof.
  intros Hdown.
  unfold checkDuplicate, checkRateLimit, checkCompletionCooldown,
    calculateRiskScore, analyzeUserActivity, generateFraudReport,
    OfferWallTransaction_findByExternalId, OfferWallTransaction_countDocuments,
    OfferWallTransaction_findOne_newest, OfferWallTransaction_find_newest,
    OfferWallTransaction_find, bind, Date_now, mongoQuery.
  rewrite checkForFraud_mongo_down by assumption.
  rewrite Hdown. repeat split; eauto.
Qed.

Lemma ledger_errors_propagate_witness :
  exists e, checkForFraud "alice" "ext-new" 500 "provider-1" ledgerDownWorld
            = (Thrown e, ledgerDownWorld).
Proof.
  destruct (ledger_errors_propagate "alice" "ext-new" 500 "provider-1"
              None None ledgerDownWorld eq_refl) as (_ & _ & _ & _ & _ & H & _).
  exact H.
Defined.

(** ** Duplicate detector *)

(** X15. With the ledger reachable, [checkDuplicate] reports a duplicate
    exactly when a record carries the same external identifier or a record of
    the same user, provider and amount, of any status, was created within the
    last 60 seconds. The external identifier is looked at first and decides
    the reason; a negative answer carries no reason. *)
Theorem checkDuplicate_characterised
    (externalTransactionId userId : string) (amount : Z) (providerId : string)
    (w : World) :
  mongoUp w = true ->
  exists dup,
    checkDuplicate externalTransactionId userId amount providerId w
      = (Returned dup, w)
    /\ (Dup.isDuplicate dup = true <->
        hasExternalId externalTransactionId w
        \/ hasSimilarRecent userId providerId amount w)
    /\ (hasExternalId externalTransactionId w ->
        Dup.reason dup = Some "Transaction ID already exists")
    /\ (~ hasExternalId externalTransactionId w ->
        hasSimilarRecent userId providerId amount w ->
        Dup.reason dup = Some "Similar transaction within 1 minute")
    /\ (Dup.isDuplicate dup = false -> Dup.reason dup = None).
Proof.
  intros Hup.
  assert (Hexact : forall o,
    List.find (fun t => String.eqb (Tx.externalTransactionId t)
                          externalTransactionId) (ledger w) = o ->
    (is_Some o <-> hasExternalId externalTransactionId w)).
  { intros o Hfind. split.
    - intros [r Hr]. subst o. apply find_some in Hr as [Hin Heq].
      apply String.eqb_eq in Heq. now exists r.
    - intros (r & Hin & Hid). destruct o as [x|]; [eauto|].
      apply (find_none _ _ Hfind) in Hin. cbn in Hin.
      rewrite Hid, String.eqb_refl in Hin. discriminate. }
  assert (Hsim : forall o,
    List.find (fun t => String.eqb (Tx.userId t) userId
                        && String.eqb (Tx.providerId t) providerId
                        && (Tx.convertedAmount t =? amount)
                        && (clock w - 60 * 1000 <=? Tx.createdAt t))
      (ledger w) = o ->
    (is_Some o <-> hasSimilarRecent userId providerId amount w)).
  { intros o Hfind. split.
    - intros [r Hr]. subst o. apply find_some in Hr as [Hin Heq].
      rewrite !andb_true_iff, !String.eqb_eq, Z.eqb_eq, Z.leb_le in Heq.
      exists r. tauto.
    - intros (r & Hin & Hu & Hp & Ha & Ht). destruct o as [x|]; [eauto|].
      apply (find_none _ _ Hfind) in Hin. cbn in Hin.
      rewrite Hu, Hp, Ha, !String.eqb_refl, Z.eqb_refl in Hin.
      apply Z.leb_le in Ht. rewrite Ht in Hin. discriminate. }
  specialize (Hexact _ eq_refl). specialize (Hsim _ eq_refl).
  unfold checkDuplicate, bind, OfferWallTransaction_findByExternalId,
    OfferWallTransaction_findOne, mongoQuery, Date_now, ret.
  rewrite Hup.
  destruct (List.find _ (ledger w)) as [x|].
  - eexists. split; [reflexivity|].
    cbn [Dup.isDuplicate Dup.reason].
    assert (hasExternalId externalTransactionId w) by (apply Hexact; eauto).
    repeat split; intros; try tauto; try discriminate.
  - rewrite Hup.
    assert (Hno : ~ hasExternalId externalTransactionId w).
    { intros H. apply Hexact in H. now destruct H. }
    destruct (List.find _ (ledger w)) as [y|];
      (eexists; split; [reflexivity|]);
      cbn [Dup.isDuplicate Dup.reason].
    + assert (hasSimilarRecent userId providerId amount w)
        by (apply Hsim; eauto).
      repeat split; intros; try tauto; try discriminate.
    + assert (Hno2 : ~ hasSimilarRecent userId providerId amount w).
      { intros H. apply Hsim in H. now destruct H. }
      repeat split; intros; try tauto; try discriminate.
Qed.

Lemma checkDuplicate_characterised_witness :
  exists dup,
    checkDuplicate "ext-new" "alice" 500 "provider-1" failedAttemptWorld
      = (Returned dup, failedAttemptWorld)
    /\ Dup.reason dup = Some "Similar transaction within 1 minute".
Proof.
  destruct (checkDuplicate_characterised "ext-new" "alice" 500 "provider-1"
              failedAttemptWorld eq_refl) as (dup & Hrun & _ & _ & H & _).
  exists dup. split; [exact Hrun|]. apply H.
  - intros (r & [<-|[]] & Hid). discriminate Hid.
  - exists (sampleTx 0 "alice" failed (T0 - 30000)).
    split; [now left|]. do 3 (split; [reflexivity|]).
    vm_compute. discriminate.
Defined.

(** ** Rate limiter, further *)

Lemma measuredCount_mono userId span span' w :
  span <= span' -> measuredCount userId span w <= measuredCount userId span' w.
Proof.
  intros Hle. unfold measuredCount. apply inj_le, filter_length_le.
  intros t. unfold completedSince. rewrite !andb_true_iff, !Z.leb_le.
  intros [Hc Ht]. split; [assumption|lia].
Qed.

(** X16. With the ledger reachable, [checkRateLimit] allows exactly the
    users whose measured counts are below both ceilings, and then gives
    neither reason nor [retryAfter]; a refusal always carries both. The
    hourly count never exceeds the daily one. *)
Theorem checkRateLimit_allows_exactly (userId : string) (w : World) :
  mongoUp w = true ->
  exists r,
    checkRateLimit userId w = (Returned r, w)
    /\ (Limit.allowed r = true <->
        measuredCount userId HOUR_MS w < 20
        /\ measuredCount userId DAY_MS w < 100)
    /\ (Limit.allowed r = true ->
        Limit.reason r = None /\ Limit.retryAfter r = None)
    /\ (Limit.allowed r = false ->
        is_Some (Limit.reason r)
        /\ (Limit.retryAfter r = Some 3600 \/ Limit.retryAfter r = Some 86400))
    /\ measuredCount userId HOUR_MS w <= measuredCount userId DAY_MS w.
Proof.
  intros Hup. eexists. split; [now apply checkRateLimit_run|].
  assert (Hmono : measuredCount userId HOUR_MS w <= measuredCount userId DAY_MS w)
    by (apply measuredCount_mono; unfold HOUR_MS, DAY_MS; lia).
  destruct (Z.leb_spec 20 (measuredCount userId HOUR_MS w));
    [|destruct (Z.leb_spec 100 (measuredCount userId DAY_MS w))];
    cbn [Limit.allowed Limit.reason Limit.retryAfter];
    repeat split; intros; try discriminate; try lia; eauto.
Qed.

Lemma checkRateLimit_allows_exactly_witness :
  exists r,
    checkRateLimit "alice" tenSecondsWorld = (Returned r, tenSecondsWorld)
    /\ Limit.allowed r = true.
Proof.
  destruct (checkRateLimit_allows_exactly "alice" tenSecondsWorld eq_refl)
    as (r & Hrun & Hiff & _).
  exists r. split; [exact Hrun|]. apply Hiff.
  split; vm_compute; reflexivity.
Defined.

(** ** Behavioural analyzer, further *)

Lemma gapLoop_total l : forall total pairs newest oldest,
  head l = Some newest -> last l = Some oldest ->
  fst (gapLoop l total pairs)
  = total + (Tx.createdAt newest - Tx.createdAt oldest).
Proof.
  induction l as [|a l IH]; intros total pairs newest oldest Hh Hl;
    [discriminate|].
  cbn in Hh. injection Hh as <-.
  destruct l as [|b l].
  - cbn in Hl. injection Hl as <-. cbn. lia.
  - change (gapLoop (a :: b :: l) total pairs)
      with (gapLoop (b :: l) (total + (Tx.createdAt a - Tx.createdAt b))
                    (pairs + 1)).
    rewrite (IH _ _ b oldest eq_refl Hl). lia.
Qed.

Lemma sorted_last_oldest l newest oldest :
  Sorted newerEq l -> head l = Some newest -> last l = Some oldest ->
  Tx.createdAt oldest <= Tx.createdAt newest.
Proof.
  intros Hs Hh Hl.
  apply (Sorted_StronglySorted newerEq_trans) in Hs.
  destruct l as [|a l]; [discriminate|]. cbn in Hh. injection Hh as <-.
  apply StronglySorted_inv in Hs as [_ Hall].
  destruct l as [|b l]; [cbn in Hl; injection Hl as <-; lia|].
  rewrite Forall_forall in Hall. apply Hall.
  change (last (a :: b :: l)) with (last (b :: l)) in Hl.
  apply list_elem_of_In. clear -Hl. revert b Hl.
  induction l as [|c l IH]; intros b Hl.
  - cbn in Hl. injection Hl as <-. now left.
  - right. apply (IH c). exact Hl.
Qed.

(** X17. The average of [analyzeUserActivity] is never negative, and for a
    window of two or more records it is the time between the oldest and the
    newest record of the window divided by the number of records less one:
    how the records in between are spaced does not matter. *)
Theorem analyzeUserActivity_average (userId : string) (w : World) :
  mongoUp w = true ->
  exists a,
    analyzeUserActivity userId w = (Returned a, w)
    /\ (0 <= Activity.avgCompletionTime a)%Q
    /\ forall newest oldest,
         head (recentTransactions userId w) = Some newest ->
         last (recentTransactions userId w) = Some oldest ->
         (2 <= length (recentTransactions userId w))%nat ->
         Activity.avgCompletionTime a
         = (inject_Z (Tx.createdAt newest - Tx.createdAt oldest)
            / inject_Z (Z.of_nat (length (recentTransactions userId w)) - 1)
            / inject_Z 1000)%Q.
Proof.
  intros Hup. eexists. split; [now apply analyzeUserActivity_run|].
  pose proof (sortNewestFirst_sorted
                (List.filter (recentOf userId (clock w - DAY_MS)) (ledger w)))
    as Hsorted.
  fold (recentTransactions userId w) in Hsorted.
  generalize dependent (recentTransactions userId w). intros l Hsorted.
  pose proof (gapLoop_pairs l 0 0) as Hpairs.
  pose proof (gapLoop_total l 0 0) as Htotal.
  unfold analyzeTransactions. destruct (gapLoop l 0 0) as [total pairs].
  cbn [fst snd] in *. cbn [Activity.avgCompletionTime].
  assert (Hform : forall newest oldest,
            head l = Some newest -> last l = Some oldest ->
            (2 <= length l)%nat ->
            (if 0 <? pairs
             then (inject_Z total / inject_Z pairs / inject_Z 1000)%Q
             else 0%Q)
            = (inject_Z (Tx.createdAt newest - Tx.createdAt oldest)
               / inject_Z (Z.of_nat (length l) - 1) / inject_Z 1000)%Q).
  { intros newest oldest Hh Hl Hlen.
    rewrite (Htotal newest oldest Hh Hl).
    destruct (Z.ltb_spec 0 pairs); [|lia].
    replace pairs with (Z.of_nat (length l) - 1) by lia.
    now rewrite Z.add_0_l. }
  split; [|exact Hform].
  destruct (Z.ltb_spec 0 pairs) as [Hpos|]; [|discriminate].
  destruct l as [|a l]; [cbn in Hpairs; lia|].
  destruct (last (a :: l)) as [oldest|] eqn:Hlast;
    [|now apply last_None in Hlast].
  rewrite (Htotal a oldest eq_refl eq_refl).
  pose proof (sorted_last_oldest (a :: l) a oldest Hsorted eq_refl Hlast).
  rewrite Z.add_0_l. unfold Qdiv.
  repeat apply Qmult_le_0_compat; try apply Qinv_le_0_compat;
    unfold Qle; cbn; lia.
Qed.

Lemma analyzeUserActivity_average_witness :
  exists a,
    analyzeUserActivity "alice" sevenWorld = (Returned a, sevenWorld)
    /\ Activity.avgCompletionTime a
       = (inject_Z 60000 / inject_Z 6 / inject_Z 1000)%Q.
Proof.
  destruct (analyzeUserActivity_average "alice" sevenWorld eq_refl)
    as (a & Hrun & _ & Havg).
  exists a. split; [exact Hrun|].
  apply (Havg (sampleTx 0 "alice" completed (T0 - 1000))
              (sampleTx 6 "alice" completed (T0 - 61000))).
  - vm_compute. reflexivity.
  - vm_compute. reflexivity.
  - vm_compute. lia.
Defined.

Lemma size_list_to_set_le (l : list string) :
  (size (list_to_set l : gset string) <= length l)%nat.
Proof.
  induction l as [|x l IH]; [now rewrite list_to_set_nil, size_empty|].
  rewrite list_to_set_cons, size_union_alt, size_singleton. cbn [length].
  assert (Hsub : (list_to_set l ∖ {[x]} : gset string) ⊆ list_to_set l)
    by apply subseteq_difference_l, reflexivity.
  apply subseteq_size in Hsub. lia.
Qed.

Lemma size_list_to_set_zero (l : list string) :
  size (list_to_set l : gset string) = 0%nat <-> l = [].
Proof.
  split; [|intros ->; now rewrite list_to_set_nil, size_empty].
  intros Hsize. destruct l as [|x l]; [reflexivity|].
  apply size_empty_iff in Hsize. exfalso.
  apply (not_elem_of_empty (C:=gset string) x). rewrite <- Hsize.
  apply elem_of_list_to_set. now left.
Qed.

Lemma size_list_to_set_one (l : list string) :
  size (list_to_set l : gset string) = 1%nat
  <-> l <> [] /\ exists p, forall x, In x l -> x = p.
Proof.
  split.
  - intros Hsize. split; [intros ->; now rewrite list_to_set_nil in Hsize|].
    apply size_1_elem_of in Hsize as [p Hp]. exists p.
    intros x Hx. apply list_elem_of_In in Hx.
    apply (elem_of_list_to_set (C:=gset string)) in Hx.
    rewrite Hp in Hx. now apply elem_of_singleton in Hx.
  - intros [Hne (p & Hall)].
    assert (Heq : (list_to_set l : gset string) = {[p]}).
    { apply set_eq. intros x. rewrite elem_of_list_to_set, elem_of_singleton.
      split.
      - intros Hx. apply Hall. now apply list_elem_of_In.
      - intros ->. destruct l as [|y l]; [now destruct Hne|].
        rewrite (Hall y (or_introl eq_refl)). now left. }
    rewrite Heq. apply size_singleton.
Qed.

(** [H] puts a label among labels that all differ from it. *)
Ltac no_label H :=
  repeat match type of H with
         | _ \/ _ => destruct H as [H|H]; [discriminate H|]
         | False => destruct H
         | _ = _ => discriminate H
         end.

Lemma labels_in (c1 c2 c3 c4 : bool) :
  let labels :=
    ((if c1 then [HIGH_RATE] else [])
     ++ (if c2 then [FAST_COMPLETIONS] else [])
     ++ (if c3 then [SINGLE_PROVIDER] else [])
     ++ (if c4 then [ROUND_AMOUNTS] else []))%list in
  (In HIGH_RATE labels <-> c1 = true)
  /\ (In SINGLE_PROVIDER labels <-> c3 = true)
  /\ (In ROUND_AMOUNTS labels <-> c4 = true)
  /\ NoDup labels /\ (length labels <= 4)%nat.
Proof.
  assert (Hin : forall (label : string) (labels : list string) (c : bool),
            (c = true -> In label labels) ->
            (c = false -> ~ In label labels) ->
            (In label labels <-> c = true)).
  { intros label labels c Hyes Hno. destruct c; split; auto.
    intros H. now apply Hno in H. }
  destruct c1, c2, c3, c4; cbn [app];
    (split; [|split; [|split; [|split]]]);
    try (apply Hin; intros Hc;
         first [discriminate Hc
               | cbn [In];
                 first [solve [repeat ((left; reflexivity) || right)]
                       | intros H; no_label H]]);
    try (cbn [length]; lia);
    repeat (apply NoDup_cons_2;
            [intros H; apply list_elem_of_In in H; cbn [In] in H; no_label H|]);
    apply NoDup_nil_2.
Qed.

Lemma Qltb_eighty_percent (n r : Z) :
  Qltb (inject_Z n * (8 # 10))%Q (inject_Z r) = true <-> 8 * n < 10 * r.
Proof.
  rewrite Qltb_lt. unfold Qlt, Qmult, inject_Z. cbn [Qnum Qden].
  rewrite Pos.mul_1_l. lia.
Qed.

(** X18. The metrics of [analyzeUserActivity] are consistent with each
    other: the count of the last hour and the number of providers lie
    between 0 and the count of the last 24 hours, the number of providers is
    0 only for an empty window, and an empty window has no suspicious
    pattern. *)
Theorem analyzeUserActivity_metric_bounds (userId : string) (w : World) :
  mongoUp w = true ->
  exists a,
    analyzeUserActivity userId w = (Returned a, w)
    /\ Activity.userId a = userId
    /\ 0 <= Activity.completionsLastHour a <= Activity.completionsLast24h a
    /\ 0 <= Activity.uniqueProviders a <= Activity.completionsLast24h a
    /\ (Activity.uniqueProviders a = 0 <-> Activity.completionsLast24h a = 0)
    /\ (Activity.completionsLast24h a = 0 ->
        Activity.suspiciousPatterns a = []).
Proof.
  intros Hup. eexists. split; [now apply analyzeUserActivity_run|].
  generalize (recentTransactions userId w). intros l.
  pose proof (filter_length_bound
                (fun t => clock w - 60 * 60 * 1000 <=? Tx.createdAt t) l) as Hhour.
  pose proof (size_list_to_set_le (map Tx.providerId l)) as Hprov.
  pose proof (size_list_to_set_zero (map Tx.providerId l)) as Hzero.
  rewrite length_map in Hprov.
  pose proof (gapLoop_pairs l 0 0) as Hpairs.
  unfold analyzeTransactions. destruct (gapLoop l 0 0) as [total pairs].
  cbn [snd] in Hpairs.
  cbn [Activity.userId Activity.completionsLastHour Activity.completionsLast24h
       Activity.uniqueProviders Activity.suspiciousPatterns].
  split; [reflexivity|]. split; [lia|]. split; [lia|]. split.
  - split; intros H.
    + assert (Hs : size (list_to_set (map Tx.providerId l) : gset string) = 0%nat)
        by lia.
      apply Hzero in Hs. destruct l; [reflexivity|discriminate].
    + assert (l = []) as -> by (destruct l; [reflexivity|cbn in H; lia]).
      reflexivity.
  - intros H.
    repeat match goal with
           | |- context [?a <? ?b] =>
               destruct (Z.ltb_spec a b); [exfalso; lia|]
           end.
    now rewrite ?andb_false_r.
Qed.

Lemma analyzeUserActivity_metric_bounds_witness :
  exists a,
    analyzeUserActivity "alice" busyDayWorld = (Returned a, busyDayWorld)
    /\ 0 <= Activity.completionsLastHour a <= Activity.completionsLast24h a.
Proof.
  destruct (analyzeUserActivity_metric_bounds "alice" busyDayWorld eq_refl)
    as (a & Hrun & _ & H & _).
  exists a. now split.
Defined.

(** X19. The labels of [analyzeUserActivity] other than the one for fast
    completions: "High completion rate" is reported exactly for more than 10
    records in the last hour; "Single provider focus" exactly for more than
    20 records that all have the same provider; "Mostly round amounts"
    exactly for more than 10 records of which more than 80% have an amount
    that is a multiple of 100. No label is reported twice. *)
Theorem analyzeUserActivity_labels (userId : string) (w : World) :
  mongoUp w = true ->
  exists a,
    analyzeUserActivity userId w = (Returned a, w)
    /\ (In HIGH_RATE (Activity.suspiciousPatterns a)
        <-> 10 < Activity.completionsLastHour a)
    /\ (In SINGLE_PROVIDER (Activity.suspiciousPatterns a)
        <-> 20 < Activity.completionsLast24h a
            /\ exists p, forall t, In t (recentTransactions userId w) ->
                                   Tx.providerId t = p)
    /\ (In ROUND_AMOUNTS (Activity.suspiciousPatterns a)
        <-> 10 < Activity.completionsLast24h a
            /\ 8 * Activity.completionsLast24h a
               < 10 * roundCount (recentTransactions userId w))
    /\ NoDup (Activity.suspiciousPatterns a)
    /\ (length (Activity.suspiciousPatterns a) <= 4)%nat.
Proof.
  intros Hup. eexists. split; [now apply analyzeUserActivity_run|].
  generalize (recentTransactions userId w). intros l.
  pose proof (size_list_to_set_one (map Tx.providerId l)) as Hone.
  unfold analyzeTransactions, roundCount. destruct (gapLoop l 0 0) as [total pairs].
  cbn [Activity.completionsLastHour Activity.completionsLast24h
       Activity.suspiciousPatterns].
  match goal with |- context [(?x1 ++ ?x2 ++ ?x3 ++ ?x4)%list] =>
    match x1 with (if ?c1 then _ else _) =>
    match x2 with (if ?c2 then _ else _) =>
    match x3 with (if ?c3 then _ else _) =>
    match x4 with (if ?c4 then _ else _) =>
      destruct (labels_in c1 c2 c3 c4) as (H1 & H3 & H4 & Hnd & Hlen)
    end end end end
  end.
  cbv zeta in *. rewrite H1, H3, H4. clear H1 H3 H4.
  split; [apply Z.ltb_lt|]. split; [|split; [|now split]].
  - rewrite andb_true_iff, Z.eqb_eq, Z.ltb_lt. split.
    + intros [Hsize Hn]. split; [assumption|].
      assert (Hs : size (list_to_set (map Tx.providerId l) : gset string) = 1%nat)
        by lia.
      apply Hone in Hs as [_ (p & Hp)]. exists p. intros t Ht.
      apply Hp, in_map_iff. now exists t.
    + intros [Hn (p & Hp)]. split; [|assumption].
      assert (Hs : size (list_to_set (map Tx.providerId l) : gset string) = 1%nat).
      { apply Hone. split.
        - destruct l; [cbn in Hn; lia|discriminate].
        - exists p. intros x Hx. apply in_map_iff in Hx as (t & <- & Ht).
          now apply Hp. }
      lia.
  - rewrite andb_true_iff, Qltb_eighty_percent, Z.ltb_lt. tauto.
Qed.

Lemma analyzeUserActivity_labels_witness :
  exists a,
    analyzeUserActivity "alice" oneProviderWorld = (Returned a, oneProviderWorld)
    /\ In SINGLE_PROVIDER (Activity.suspiciousPatterns a).
Proof.
  destruct (analyzeUserActivity_labels "alice" oneProviderWorld eq_refl)
    as (a & Hrun & _ & Hsingle & _).
  exists a. split; [exact Hrun|]. apply Hsingle.
  assert (Ha : a = analyzeTransactions "alice" T0
                     (recentTransactions "alice" oneProviderWorld)).
  { rewrite (analyzeUserActivity_run "alice" oneProviderWorld eq_refl) in Hrun.
    now injection Hrun. }
  rewrite Ha. split; [vm_compute; reflexivity|].
  exists "provider-1". intros t Ht.
  unfold recentTransactions in Ht.
  apply (Permutation_in _ (sortNewestFirst_perm _)) in Ht.
  apply filter_In in Ht as [Ht _]. cbn [ledger oneProviderWorld worldOf] in Ht.
  unfold burst in Ht. apply in_map_iff in Ht as (i & <- & _). reflexivity.
Defined.

(** ** Risk scorer, further *)

(** X20. With the ledger reachable, [calculateRiskScore] returns a score
    between 0 and 100; the score of [checkForFraud] is at least that score
    and at most 180, and when it exceeds 100 it is 130, 150 or 180: the sum
    for a duplicate that meets a refusal of the cooldown, of the rate limiter,
    or of both. *)
Theorem risk_score_ranges
    (userId externalTransactionId : string) (amount : Z) (providerId : string)
    (w : World) :
  mongoUp w = true ->
  exists s d w',
    calculateRiskScore userId w = (Returned s, w)
    /\ 0 <= s <= 100
    /\ checkForFraud userId externalTransactionId amount providerId w
       = (Returned d, w')
    /\ s <= riskScore d <= 180
    /\ (riskScore d <= 100 \/ riskScore d = 130 \/ riskScore d = 150
        \/ riskScore d = 180).
Proof.
  intros Hup.
  destruct (calculateRiskScore_range userId w Hup) as (s & Hs & Hrange).
  destruct (checkDuplicate_run externalTransactionId userId amount providerId
              w Hup) as [dup Hdup].
  pose proof (checkRateLimit_run userId w Hup) as Hrate.
  destruct (checkCompletionCooldown_run userId w Hup) as [cool Hcool].
  pose proof (checkForFraud_run _ _ _ _ _ _ _ _ Hup Hdup Hrate Hcool) as Hrun.
  cbv zeta in Hrun.
  exists s. do 2 eexists. split; [exact Hs|]. split; [exact Hrange|].
  split; [exact Hrun|]. cbn [riskScore].
  rewrite calculateRiskScore_run in Hs by assumption. injection Hs as Hs.
  rewrite Hs.
  destruct (Dup.isDuplicate dup), (Limit.allowed _), (Limit.allowed cool); lia.
Qed.

Lemma risk_score_ranges_witness :
  exists s d w',
    calculateRiskScore "alice" tenSecondsWorld = (Returned s, tenSecondsWorld)
    /\ 0 <= s <= 100
    /\ checkForFraud "alice" "ext-0" 500 "provider-1" tenSecondsWorld
       = (Returned d, w')
    /\ s <= riskScore d <= 180.
Proof.
  destruct (risk_score_ranges "alice" "ext-0" 500 "provider-1" tenSecondsWorld
              eq_refl) as (s & d & w' & H1 & H2 & H3 & H4 & _).
  exists s, d, w'. repeat split; assumption || apply H2 || apply H4.
Defined.

(** ** IP abuse tracker, further *)

(** X21. [trackIPAddress] never throws. With the store unreachable it
    answers "not suspicious", logs the error and writes nothing, whatever is
    on file for the address. *)
Theorem trackIPAddress_never_throws (ipAddress userId : string) (w : World) :
  (exists r w', trackIPAddress ipAddress userId w = (Returned r, w'))
  /\ (redisUp w = false ->
      trackIPAddress ipAddress userId w
      = (Returned (IpCheck.mk false None),
         addLog (error, "Error tracking IP:") w)).
Proof.
  split; [|apply trackIPAddress_down].
  destruct (redisUp w) eqn:Hup.
  - destruct (liveValue (ipKey ipAddress) w) as [[a b c|us c ls]|] eqn:Hlive.
    + rewrite (trackIPAddress_other_doc _ _ _ _ _ _ Hup Hlive). eauto.
    + rewrite (trackIPAddress_up ipAddress userId w us c Hup); [eauto|].
      left. unfold ipRecord. now rewrite Hlive.
    + rewrite (trackIPAddress_up ipAddress userId w [] 0 Hup); [eauto|].
      right. now split.
  - rewrite trackIPAddress_down by assumption. eauto.
Qed.

Lemma trackIPAddress_never_throws_witness :
  trackIPAddress "203.0.113.7" "u9" flaggedStoreDownWorld
  = (Returned (IpCheck.mk false None),
     addLog (error, "Error tracking IP:") flaggedStoreDownWorld).
Proof.
  destruct (trackIPAddress_never_throws "203.0.113.7" "u9" flaggedStoreDownWorld)
    as [_ H].
  exact (H eq_refl).
Defined.

Lemma addUser_length userId users :
  (length users <= length (addUser userId users) <= S (length users))%nat.
Proof.
  unfold addUser. destruct (existsb _ users); [lia|].
  rewrite length_app. cbn [length]. lia.
Qed.

(** X22. With the store reachable and a live record of [count] requests on
    file, the answer is "suspicious" exactly when the users, after adding
    the caller if new, are more than five or [count] is 100 or more; more
    than five users are reported as multiple users, otherwise the 101st
    request and every later one as a high request count. An address that is
    suspicious for its users stays so for every caller. *)
Theorem trackIPAddress_verdict (ipAddress userId : string) (w : World)
    (users : list string) (count : Z) :
  redisUp w = true ->
  ipRecord ipAddress w = Some (users, count) ->
  exists r w',
    trackIPAddress ipAddress userId w = (Returned r, w')
    /\ ipRecord ipAddress w' = Some (addUser userId users, count + 1)
    /\ (IpCheck.suspicious r = true <->
        (5 < length (addUser userId users))%nat \/ 100 <= count)
    /\ ((5 < length (addUser userId users))%nat ->
        IpCheck.reason r
        = Some ("Multiple users ("
                +:+ showZ (Z.of_nat (length (addUser userId users)))
                +:+ ") from same IP"))
    /\ ((length (addUser userId users) <= 5)%nat -> 100 <= count ->
        IpCheck.reason r
        = Some ("High request count (" +:+ showZ (count + 1) +:+ ") from IP"))
    /\ ((5 < length users)%nat -> IpCheck.suspicious r = true).
Proof.
  intros Hup Hrec.
  rewrite (trackIPAddress_up ipAddress userId w users count Hup (or_introl Hrec)).
  do 2 eexists. split; [reflexivity|]. split; [apply tracked_ipRecord_now|].
  pose proof (addUser_length userId users) as Hlen.
  unfold ipVerdict.
  destruct (Z.ltb_spec 5 (Z.of_nat (length (addUser userId users))));
    [|destruct (Z.ltb_spec 100 (count + 1))];
    cbn [IpCheck.suspicious IpCheck.reason];
    repeat split; intros; try reflexivity; try discriminate; try lia;
    try (left; lia); try (right; lia).
Qed.

Lemma trackIPAddress_verdict_witness :
  exists r w',
    trackIPAddress "203.0.113.7" "u1" heavyIpWorld = (Returned r, w')
    /\ IpCheck.reason r = Some "High request count (101) from IP".
Proof.
  destruct (trackIPAddress_verdict "203.0.113.7" "u1" heavyIpWorld
              ["u1"; "u2"; "u3"; "u4"] 100 eq_refl)
    as (r & w' & Hrun & _ & _ & _ & Hhigh & _).
  - vm_compute. reflexivity.
  - exists r, w'. split; [exact Hrun|].
    rewrite Hhigh; [reflexivity| vm_compute; lia | lia].
Defined.

(** X23. Every successful call renews the record for 24 hours from the call:
    until then the record is the updated one, from then on there is no
    record, and the next call starts over with the caller as the only user
    and a count of 1. *)
Theorem trackIPAddress_expiry (ipAddress userId : string) (w : World)
    (users : list string) (count : Z) :
  redisUp w = true ->
  ipRecord ipAddress w = Some (users, count)
  \/ (liveValue (ipKey ipAddress) w = None /\ users = [] /\ count = 0) ->
  let w1 := snd (trackIPAddress ipAddress userId w) in
  (forall ms, 0 <= ms ->
     ipRecord ipAddress (later ms w1)
     = if ms <? ONE_DAY * 1000 then Some (addUser userId users, count + 1)
       else None)
  /\ (forall ms next, ONE_DAY * 1000 <= ms ->
        trackIPAddress ipAddress next (later ms w1)
        = (Returned (IpCheck.mk false None),
           tracked ipAddress [next] 1 (later ms w1))).
Proof.
  intros Hup Hrec. cbv zeta.
  rewrite (trackIPAddress_up ipAddress userId w users count Hup Hrec).
  cbn [snd].
  assert (Hlive : forall ms,
    liveValue (ipKey ipAddress)
      (later ms (tracked ipAddress (addUser userId users) (count + 1) w))
    = if ms <? ONE_DAY * 1000
      then Some (IpDoc (addUser userId users) (count + 1) (clock w))
      else None).
  { intros ms. unfold liveValue, later, tracked.
    cbn [redisStore clock atTime setRedisStore]. rewrite lookup_insert_eq.
    destruct (Z.ltb_spec (clock w + ms) (clock w + ONE_DAY * 1000)),
             (Z.ltb_spec ms (ONE_DAY * 1000)); reflexivity || lia. }
  split.
  - intros ms _. unfold ipRecord. rewrite Hlive.
    now destruct (ms <? ONE_DAY * 1000).
  - intros ms next Hms.
    rewrite (trackIPAddress_up ipAddress next _ [] 0); [reflexivity|exact Hup|].
    right. split; [|now split]. rewrite Hlive.
    destruct (Z.ltb_spec ms (ONE_DAY * 1000)); [lia|reflexivity].
Qed.

Lemma trackIPAddress_expiry_witness :
  ipRecord "203.0.113.7"
    (later 86400000 (snd (trackIPAddress "203.0.113.7" "u1" heavyIpWorld)))
  = None.
Proof.
  destruct (trackIPAddress_expiry "203.0.113.7" "u1" heavyIpWorld
              ["u1"; "u2"; "u3"; "u4"] 100 eq_refl) as [H _].
  - left. vm_compute. reflexivity.
  - rewrite (H 86400000); [reflexivity|lia].
Defined.

(** ** The fraud report *)

Lemma bump_getCount_eq k m : getCount k (bump k m) = getCount k m + 1.
Proof.
  induction m as [|[k' n] m IH]; cbn [bump getCount].
  - rewrite String.eqb_refl. reflexivity.
  - destruct (String.eqb k' k) eqn:E; cbn [getCount]; rewrite E; [|exact IH].
    destruct (Z.eqb_spec n 0); lia.
Qed.

Lemma bump_getCount_ne k k' m : k' <> k -> getCount k' (bump k m) = getCount k' m.
Proof.
  intros Hne. induction m as [|[k0 n] m IH]; cbn [bump getCount].
  - destruct (String.eqb_spec k k'); [congruence|reflexivity].
  - destruct (String.eqb_spec k0 k) as [->|]; cbn [getCount].
    + destruct (String.eqb_spec k k'); [congruence|reflexivity].
    + now rewrite IH.
Qed.

Lemma bump_keys k m k' :
  In k' (map fst (bump k m)) <-> k' = k \/ In k' (map fst m).
Proof.
  induction m as [|[k0 n] m IH]; cbn [bump map fst In].
  - intuition congruence.
  - destruct (String.eqb_spec k0 k) as [->|]; cbn [map fst In].
    + intuition congruence.
    + rewrite IH. intuition congruence.
Qed.

Lemma bump_NoDup k m : NoDup (map fst m) -> NoDup (map fst (bump k m)).
Proof.
  induction m as [|[k0 n] m IH]; cbn [bump map fst]; intros Hnd.
  - apply NoDup_singleton.
  - apply NoDup_cons in Hnd as [Hnotin Hnd].
    destruct (String.eqb_spec k0 k) as [->|Hne]; cbn [map fst].
    + now apply NoDup_cons.
    + apply NoDup_cons. split; [|now apply IH].
      rewrite list_elem_of_In, bump_keys. rewrite list_elem_of_In in Hnotin.
      intuition congruence.
Qed.

Lemma bump_sum k m : sumCounts (bump k m) = sumCounts m + 1.
Proof.
  induction m as [|[k0 n] m IH]; cbn [bump sumCounts fold_right snd]; [lia|].
  destruct (String.eqb k0 k); cbn [sumCounts fold_right snd].
  - destruct (Z.eqb_spec n 0); lia.
  - unfold sumCounts in IH. lia.
Qed.

Lemma getCount_In k n m :
  NoDup (map fst m) -> In (k, n) m -> getCount k m = n.
Proof.
  induction m as [|[k0 n0] m IH]; cbn [map fst getCount]; intros Hnd Hin;
    [destruct Hin|].
  apply NoDup_cons in Hnd as [Hnotin Hnd].
  destruct Hin as [Heq|Hin].
  - injection Heq as -> ->. now rewrite String.eqb_refl.
  - destruct (String.eqb_spec k0 k) as [->|]; [|now apply IH].
    exfalso. apply Hnotin, list_elem_of_In, in_map_iff. now exists (k, n).
Qed.

Lemma In_getCount k m : In k (map fst m) -> In (k, getCount k m) m.
Proof.
  induction m as [|[k0 n0] m IH]; cbn [map fst getCount In]; [tauto|].
  destruct (String.eqb_spec k0 k) as [->|Hne]; [now left|].
  intros [Heq|Hin]; [congruence|]. right. now apply IH.
Qed.

Lemma countKey_cons key k t l :
  countKey key k (t :: l)
  = (if String.eqb (key t) k then 1 else 0) + countKey key k l.
Proof.
  unfold countKey. cbn [List.filter].
  destruct (String.eqb (key t) k); cbn [length]; lia.
Qed.

Lemma countKey_pos key k l :
  0 < countKey key k l <-> exists t, In t l /\ key t = k.
Proof.
  induction l as [|t l IH].
  { unfold countKey. cbn [List.filter length]. split; [lia|].
    intros (t & [] & _). }
  rewrite countKey_cons. unfold countKey in *.
  destruct (String.eqb_spec (key t) k) as [Heq|Hne].
  - split; [|lia]. intros _. exists t. split; [now left|assumption].
  - rewrite Z.add_0_l, IH. split.
    + intros (x & Hin & Hx). exists x. split; [now right|assumption].
    + intros (x & [->|Hin] & Hx); [congruence|]. now exists x.
Qed.

Lemma tally_getCount key l : forall m k,
  getCount k (tally key l m) = getCount k m + countKey key k l.
Proof.
  induction l as [|t l IH]; intros m k.
  { unfold countKey. cbn [tally fold_left List.filter length]. lia. }
  cbn [tally fold_left]. fold (tally key l (bump (key t) m)).
  rewrite IH, countKey_cons.
  destruct (String.eqb_spec (key t) k) as [->|Hne].
  - rewrite bump_getCount_eq. lia.
  - rewrite bump_getCount_ne by congruence. lia.
Qed.

Lemma tally_sum key l : forall m,
  sumCounts (tally key l m) = sumCounts m + Z.of_nat (length l).
Proof.
  induction l as [|t l IH]; intros m.
  { cbn [tally fold_left length]. lia. }
  cbn [tally fold_left]. fold (tally key l (bump (key t) m)).
  rewrite IH, bump_sum. cbn [length]. lia.
Qed.

Lemma tally_NoDup key l : forall m,
  NoDup (map fst m) -> NoDup (map fst (tally key l m)).
Proof.
  induction l as [|t l IH]; intros m Hnd; [exact Hnd|].
  cbn [tally fold_left]. apply IH. now apply bump_NoDup.
Qed.

Lemma tally_keys key l : forall m k,
  In k (map fst (tally key l m))
  <-> In k (map fst m) \/ exists t, In t l /\ key t = k.
Proof.
  induction l as [|t l IH]; intros m k.
  - cbn. split; [tauto|]. intros [H|(t & [] & _)]. exact H.
  - cbn [tally fold_left]. fold (tally key l (bump (key t) m)).
    rewrite IH, bump_keys. split.
    + intros [[->|Hin]|(x & Hin & Hx)]; eauto.
      * right. exists t. split; [now left|reflexivity].
      * right. exists x. split; [now right|assumption].
    + intros [Hin|(x & [->|Hin] & Hx)]; eauto.
Qed.

(** The entries of a counter filled from no entries: one per key that
    occurs, with the number of its occurrences. *)
Lemma tally_entries key l k n :
  In (k, n) (tally key l []) <-> n = countKey key k l /\ 0 < n.
Proof.
  pose proof (tally_NoDup key l [] (NoDup_nil_2 (A:=string))) as Hnd.
  pose proof (tally_getCount key l [] k) as Hcount. cbn [getCount] in Hcount.
  split.
  - intros Hin. rewrite (getCount_In k n _ Hnd Hin) in Hcount.
    split; [lia|]. subst n. rewrite Z.add_0_l. apply countKey_pos.
    assert (Hk : In k (map fst (tally key l [])))
      by (apply in_map_iff; now exists (k, countKey key k l)).
    apply tally_keys in Hk as [[]|Hk]. exact Hk.
  - intros [-> Hpos]. rewrite <- (Z.add_0_l (countKey key k l)), <- Hcount.
    apply In_getCount, tally_keys. right. now apply countKey_pos.
Qed.

Lemma reportStep_fold l : forall userActivity providerActivity failedSoFar,
  fold_left reportStep l (userActivity, providerActivity, failedSoFar)
  = (tally Tx.userId l userActivity, tally Tx.providerId l providerActivity,
     (failedSoFar ++ List.filter isFailed l)%list).
Proof.
  induction l as [|t l IH]; intros ua pa fs.
  - cbn. now rewrite app_nil_r.
  - cbn [fold_left reportStep tally List.filter]. rewrite IH.
    unfold isFailed at 2. unfold tally.
    destruct (TxStatus_eqb (Tx.status t) failed);
      [now rewrite <- app_assoc|reflexivity].
Qed.

Lemma insertByCount_perm x l : Permutation (insertByCount x l) (x :: l).
Proof.
  induction l as [|y l IH]; cbn [insertByCount]; [reflexivity|].
  destruct (snd y <=? snd x); [reflexivity|].
  rewrite IH. apply perm_swap.
Qed.

Lemma sortByCount_perm l : Permutation (sortByCount l) l.
Proof.
  induction l as [|x l IH]; cbn [sortByCount fold_right]; [reflexivity|].
  fold (sortByCount l). rewrite insertByCount_perm. now constructor.
Qed.

Lemma insertByCount_sorted x l :
  Sorted countGe l -> Sorted countGe (insertByCount x l).
Proof.
  induction 1 as [|y l Hs IH Hhd]; cbn [insertByCount]; [repeat constructor|].
  destruct (Z.leb_spec (snd y) (snd x)).
  - constructor; [now constructor|]. constructor. assumption.
  - constructor; [assumption|].
    destruct l as [|z l]; cbn [insertByCount].
    + constructor. unfold countGe. lia.
    + destruct (snd z <=? snd x); constructor;
        [unfold countGe; lia | now inversion Hhd].
Qed.

Lemma sortByCount_sorted l : Sorted countGe (sortByCount l).
Proof.
  induction l as [|x l IH]; cbn [sortByCount fold_right]; [constructor|].
  now apply insertByCount_sorted.
Qed.

Lemma countGe_trans : Relations_1.Transitive countGe.
Proof. intros a b c. unfold countGe. lia. Qed.

Lemma StronglySorted_take_drop {A} (R : A -> A -> Prop) (l : list A) n x y :
  StronglySorted R l -> In x (take n l) -> In y (drop n l) -> R x y.
Proof.
  intros Hs. revert n. induction Hs as [|a l Hs IH Hall]; intros n Hx Hy.
  - now rewrite take_nil in Hx.
  - destruct n as [|n]; [destruct Hx|]. cbn [take drop] in *.
    destruct Hx as [->|Hx]; [|now apply (IH n)].
    rewrite Forall_forall in Hall. apply Hall.
    apply list_elem_of_In in Hy. exact (subseteq_drop n l y Hy).
Qed.

Lemma StronglySorted_take {A} (R : A -> A -> Prop) (l : list A) n :
  StronglySorted R l -> StronglySorted R (take n l).
Proof.
  intros Hs. revert n. induction Hs as [|a l Hs IH Hall]; intros n.
  - rewrite take_nil. constructor.
  - destruct n as [|n]; cbn [take]; constructor; [apply IH|].
    rewrite Forall_forall in *. intros x Hx. apply Hall.
    exact (subseteq_take n l x Hx).
Qed.

(** The run of [generateFraudReport] on a reachable ledger. *)
Lemma generateFraudReport_run startDate endDate w :
  mongoUp w = true ->
  let start := default (clock w - 7 * 24 * 60 * 60 * 1000) startDate in
  let finish := default (clock w) endDate in
  let records := periodRecords start finish w in
  exists flaggedList w',
    getFlaggedUsers w = (Returned flaggedList, w')
    /\ generateFraudReport startDate endDate w
       = (Returned
            (Report.mk start finish
               (Z.of_nat (length records))
               (Z.of_nat (length (List.filter isFailed records)))
               (List.filter (fun e : string * Z => 50 <? snd e)
                  (tally Tx.userId records []))
               flaggedList
               (take 10 (sortByCount (tally Tx.userId records [])))
               (tally Tx.providerId records [])), w').
Proof.
  intros Hup. cbv zeta.
  destruct (getFlaggedUsers w) as [[flaggedList|e] w'] eqn:Hflag.
  - exists flaggedList, w'. split; [reflexivity|].
    unfold generateFraudReport, bind, Date_now, OfferWallTransaction_find,
      mongoQuery, ret.
    rewrite Hup. fold (periodRecords
      (default (clock w - 7 * 24 * 60 * 60 * 1000) startDate)
      (default (clock w) endDate) w).
    rewrite reportStep_fold. cbn [app]. now rewrite Hflag.
  - rewrite getFlaggedUsers_run in Hflag. destruct (redisUp w); discriminate.
Qed.

(** X24. With the ledger reachable, [generateFraudReport] covers the records
    created between the start and the end given, the start defaulting to
    seven days before now and the end to now. It counts them all, counts the
    failed ones among them, and breaks them down by provider: one entry per
    provider that occurs, with the number of its records, the entries adding
    up to the total. *)
Theorem generateFraudReport_totals (startDate endDate : option Z) (w : World) :
  mongoUp w = true ->
  let start := default (clock w - 7 * 24 * 60 * 60 * 1000) startDate in
  let finish := default (clock w) endDate in
  let records := periodRecords start finish w in
  exists r w',
    generateFraudReport startDate endDate w = (Returned r, w')
    /\ Report.periodStart r = start /\ Report.periodEnd r = finish
    /\ Report.totalTransactions r = Z.of_nat (length records)
    /\ Report.failedTransactions r
       = Z.of_nat (length (List.filter isFailed records))
    /\ 0 <= Report.failedTransactions r <= Report.totalTransactions r
    /\ sumCounts (Report.providerBreakdown r) = Report.totalTransactions r
    /\ NoDup (map fst (Report.providerBreakdown r))
    /\ (forall p n,
          In (p, n) (Report.providerBreakdown r)
          <-> n = countKey Tx.providerId p records /\ 0 < n).
Proof.
  intros Hup.
  destruct (generateFraudReport_run startDate endDate w Hup)
    as (flaggedList & w' & _ & Hrun).
  cbv zeta in *. do 2 eexists. split; [exact Hrun|].
  cbn [Report.periodStart Report.periodEnd Report.totalTransactions
       Report.failedTransactions Report.providerBreakdown].
  do 4 (split; [reflexivity|]). split; [|split; [|split]].
  - pose proof (filter_length_bound isFailed
      (periodRecords (default (clock w - 7 * 24 * 60 * 60 * 1000) startDate)
                     (default (clock w) endDate) w)). lia.
  - rewrite tally_sum. cbn [sumCounts fold_right]. lia.
  - apply tally_NoDup. constructor.
  - intros p n. apply tally_entries.
Qed.

Lemma generateFraudReport_totals_witness :
  exists r w',
    generateFraudReport None None reportWorld = (Returned r, w')
    /\ Report.totalTransactions r = 6
    /\ Report.failedTransactions r = 1
    /\ In ("p1", 4) (Report.providerBreakdown r).
Proof.
  destruct (generateFraudReport_totals None None reportWorld eq_refl)
    as (r & w' & Hrun & _ & _ & Htotal & Hfailed & _ & _ & _ & Hprov).
  exists r, w'. split; [exact Hrun|].
  rewrite Htotal, Hfailed. split; [vm_compute; reflexivity|].
  split; [vm_compute; reflexivity|].
  apply Hprov. split; vm_compute; reflexivity.
Defined.

(** X25. The suspicious users of the report are exactly the users with more
    than 50 records in the period, each with the number of its records,
    whatever the status of the records. *)
Theorem generateFraudReport_suspiciousUsers (startDate endDate : option Z)
    (w : World) :
  mongoUp w = true ->
  let start := default (clock w - 7 * 24 * 60 * 60 * 1000) startDate in
  let finish := default (clock w) endDate in
  let records := periodRecords start finish w in
  exists r w',
    generateFraudReport startDate endDate w = (Returned r, w')
    /\ (forall userId n,
          In (userId, n) (Report.suspiciousUsers r)
          <-> n = countKey Tx.userId userId records /\ 50 < n)
    /\ NoDup (map fst (Report.suspiciousUsers r)).
Proof.
  intros Hup.
  destruct (generateFraudReport_run startDate endDate w Hup)
    as (flaggedList & w' & _ & Hrun).
  cbv zeta in *. do 2 eexists. split; [exact Hrun|].
  cbn [Report.suspiciousUsers]. split.
  - intros userId n. rewrite filter_In, tally_entries. cbn [snd].
    rewrite Z.ltb_lt. split; [tauto|]. intros [Hn Hlt]. repeat split; try lia.
  - apply (sublist_NoDup _ (map fst (tally Tx.userId
        (periodRecords (default (clock w - 7 * 24 * 60 * 60 * 1000) startDate)
                       (default (clock w) endDate) w) []))).
    + apply tally_NoDup. constructor.
    + generalize (tally Tx.userId
        (periodRecords (default (clock w - 7 * 24 * 60 * 60 * 1000) startDate)
                       (default (clock w) endDate) w) []).
      intros m. induction m as [|e m IH]; cbn [List.filter map];
        [constructor|].
      destruct (50 <? snd e); cbn [map]; now constructor.
Qed.

Lemma generateFraudReport_suspiciousUsers_witness :
  exists r w',
    generateFraudReport (Some (T0 - 3600000)) None busyHourWorld = (Returned r, w')
    /\ In ("alice", 100) (Report.suspiciousUsers r).
Proof.
  destruct (generateFraudReport_suspiciousUsers (Some (T0 - 3600000)) None
              busyHourWorld eq_refl) as (r & w' & Hrun & Hsus & _).
  exists r, w'. split; [exact Hrun|].
  apply Hsus. split; vm_compute; reflexivity.
Defined.

(** X26. The top users of the report are at most ten users of the period,
    each listed once with the number of its records, in order of decreasing
    number; a user of the period who is left out has no more records than
    any user listed, and then ten users are listed. *)
Theorem generateFraudReport_topUsers (startDate endDate : option Z) (w : World) :
  mongoUp w = true ->
  let start := default (clock w - 7 * 24 * 60 * 60 * 1000) startDate in
  let finish := default (clock w) endDate in
  let records := periodRecords start finish w in
  exists r w',
    generateFraudReport startDate endDate w = (Returned r, w')
    /\ (length (Report.topUsers r) <= 10)%nat
    /\ Sorted countGe (Report.topUsers r)
    /\ NoDup (map fst (Report.topUsers r))
    /\ (forall userId n,
          In (userId, n) (Report.topUsers r) ->
          n = countKey Tx.userId userId records /\ 0 < n)
    /\ (forall userId,
          0 < countKey Tx.userId userId records ->
          ~ In userId (map fst (Report.topUsers r)) ->
          length (Report.topUsers r) = 10%nat
          /\ forall listed n, In (listed, n) (Report.topUsers r) ->
                              countKey Tx.userId userId records <= n).
Proof.
  intros Hup.
  destruct (generateFraudReport_run startDate endDate w Hup)
    as (flaggedList & w' & _ & Hrun).
  cbv zeta in *. do 2 eexists. split; [exact Hrun|].
  cbn [Report.topUsers].
  set (records := periodRecords _ _ w).
  set (counts := tally Tx.userId records []).
  pose proof (sortByCount_perm counts) as Hperm.
  pose proof (Sorted_StronglySorted countGe_trans (sortByCount_sorted counts))
    as Hsorted.
  assert (Hnd : NoDup (map fst (sortByCount counts))).
  { rewrite Hperm. apply tally_NoDup. constructor. }
  split; [rewrite length_take; lia|]. split; [|split; [|split]].
  - apply StronglySorted_Sorted. now apply StronglySorted_take.
  - apply (sublist_NoDup _ _ Hnd). rewrite <- firstn_map. apply sublist_take.
  - intros userId n Hin. apply tally_entries.
    apply (Permutation_in _ Hperm).
    apply list_elem_of_In. apply list_elem_of_In in Hin.
    exact (subseteq_take 10 _ _ Hin).
  - intros userId Hpos Hout.
    assert (Hin : In (userId, countKey Tx.userId userId records)
                     (sortByCount counts)).
    { apply (Permutation_in _ (Permutation_sym Hperm)).
      apply tally_entries. now split. }
    rewrite <- (firstn_skipn 10 (sortByCount counts)) in Hin.
    apply in_app_or in Hin as [Hin|Hin].
    { exfalso. apply Hout, in_map_iff. now exists (userId, countKey Tx.userId userId records). }
    split.
    + assert (Hlen : (length (drop 10 (sortByCount counts)) > 0)%nat)
        by (destruct (drop 10 (sortByCount counts)); [destruct Hin|cbn; lia]).
      rewrite length_drop in Hlen. rewrite length_take. lia.
    + intros listed n Hlisted.
      exact (StronglySorted_take_drop countGe _ 10 _ _ Hsorted Hlisted Hin).
Qed.

Lemma generateFraudReport_topUsers_witness :
  exists r w',
    generateFraudReport None None reportWorld = (Returned r, w')
    /\ Report.topUsers r = [("alice", 3); ("bob", 2); ("carol", 1)].
Proof.
  destruct (generateFraudReport_topUsers None None reportWorld eq_refl)
    as (r & w' & Hrun & _).
  exists r, w'. split; [exact Hrun|].
  assert (Hr : fst (generateFraudReport None None reportWorld) = Returned r)
    by now rewrite Hrun.
  vm_compute in Hr. injection Hr as <-. reflexivity.
Defined.

(** X27. The report reads and never writes. It does not depend on the flag
    store being reachable: with the store down it is still returned, with an
    empty list of flagged users and the error logged; with the store up it
    lists the flagged users [getFlaggedUsers] returns. *)
Theorem generateFraudReport_read_only (startDate endDate : option Z) (w : World) :
  mongoUp w = true ->
  exists r w',
    generateFraudReport startDate endDate w = (Returned r, w')
    /\ ledger w' = ledger w /\ accounts w' = accounts w
    /\ redisStore w' = redisStore w
    /\ (redisUp w = true ->
        w' = w /\ fst (getFlaggedUsers w) = Returned (Report.flaggedUsers r))
    /\ (redisUp w = false ->
        Report.flaggedUsers r = []
        /\ w' = addLog (error, "Error getting flagged users:") w).
Proof.
  intros Hup.
  destruct (generateFraudReport_run startDate endDate w Hup)
    as (flaggedList & w' & Hflag & Hrun).
  cbv zeta in *. do 2 eexists. split; [exact Hrun|].
  cbn [Report.flaggedUsers]. rewrite getFlaggedUsers_run in *.
  destruct (redisUp w); injection Hflag as <- <-;
    repeat split; intros; try discriminate; reflexivity.
Qed.

Lemma generateFraudReport_read_only_witness :
  exists r w',
    generateFraudReport None None reportWorld = (Returned r, w')
    /\ Report.flaggedUsers r = [].
Proof.
  destruct (generateFraudReport_read_only None None reportWorld eq_refl)
    as (r & w' & Hrun & _ & _ & _ & _ & Hdown).
  exists r, w'. split; [exact Hrun|]. now apply Hdown.
Defined.
